(** * Annotation editor state machine (src/components/Editor.tsx)

    A shallow embedding of the React state of the [Editor] component and of
    its event handlers.  Every [useState] cell is a field of [EditorState];
    every handler is a function from the state of the render it was created
    in to the state of the next render.  Pointer coordinates are integer
    pixel positions ([Z]); the only non-rational value of the source,
    [Math.sqrt] in the circle branch, is kept symbolic ([MathSqrt]).
    [Date.now()] is an input of the handlers that read the clock. *)

From Stdlib Require Import ZArith String List Lia DecimalString.
From Stdlib Require QArith_base DecimalZ.
From stdpp Require Import base option list strings.
Import ListNotations.

Local Open Scope Z_scope.

(** ** Data model *)

(** [type Tool = "select" | "pen" | ... | "crop"] *)
Inductive Tool : Set :=
  | select | pen | highlighter | arrow | rect | circle | text | crop.

#[global] Instance Tool_eq_dec : EqDecision Tool.
Proof. solve_decision. Defined.

(** The value stored in [radius]: the literal written by [handleMouseDown],
    or [Math.sqrt(d)] written by [handleMouseMove]. *)
Inductive Radius : Set :=
  | Exact (z : Z)
  | MathSqrt (d : Z).

#[global] Instance Radius_eq_dec : EqDecision Radius.
Proof. solve_decision. Defined.

(** [{ x: number; y: number }], the pointer position of a Konva stage. *)
Module Pos.
Record t : Set := mk { x : Z; y : Z }.
End Pos.

#[global] Instance Pos_eq_dec : EqDecision Pos.t.
Proof. solve_decision. Defined.

(** [interface Shape].  An optional field is [None] when the object does not
    carry it.  A slot of the [points] array is [None] when it holds
    [undefined] (an index read past the end of an array). *)
Module Shape.
Record t : Set := mk {
  id : string;
  tool : Tool;
  points : option (list (option Z));
  x : option Z;
  y : option Z;
  width : option Z;
  height : option Z;
  radius : option Radius;
  text : option string;
  color : string;
  strokeWidth : Z
}.

(** [{ ...s, points: p }] *)
Definition with_points (p : list (option Z)) (s : t) : t :=
  mk (id s) (tool s) (Some p) (x s) (y s) (width s) (height s) (radius s)
     (text s) (color s) (strokeWidth s).

(** [{ ...s, width: w, height: h }] *)
Definition with_width_height (w h : Z) (s : t) : t :=
  mk (id s) (tool s) (points s) (x s) (y s) (Some w) (Some h) (radius s)
     (text s) (color s) (strokeWidth s).

(** [{ ...s, radius: r }] *)
Definition with_radius (r : Radius) (s : t) : t :=
  mk (id s) (tool s) (points s) (x s) (y s) (width s) (height s) (Some r)
     (text s) (color s) (strokeWidth s).
End Shape.

(** The [useState] cells of [Editor].  [screenshot] holds the data URL of the
    image element that finished loading. *)
Record EditorState : Set := mkState {
  screenshot : option string;
  tool : Tool;
  color : string;
  strokeWidth : Z;
  shapes : list Shape.t;
  isDrawing : bool;
  selectedId : option string;
  textInput : string;
  textPosition : option Pos.t
}.

(** The state of the first render. *)
Definition initialState : EditorState :=
  mkState None pen "#ff0000" 3 [] false None "" None.

(** *** State setters *)

Definition setScreenshot (v : option string) (st : EditorState) : EditorState :=
  mkState v (tool st) (color st) (strokeWidth st) (shapes st) (isDrawing st)
          (selectedId st) (textInput st) (textPosition st).

Definition setTool (v : Tool) (st : EditorState) : EditorState :=
  mkState (screenshot st) v (color st) (strokeWidth st) (shapes st)
          (isDrawing st) (selectedId st) (textInput st) (textPosition st).

Definition setColor (v : string) (st : EditorState) : EditorState :=
  mkState (screenshot st) (tool st) v (strokeWidth st) (shapes st)
          (isDrawing st) (selectedId st) (textInput st) (textPosition st).

Definition setStrokeWidth (v : Z) (st : EditorState) : EditorState :=
  mkState (screenshot st) (tool st) (color st) v (shapes st) (isDrawing st)
          (selectedId st) (textInput st) (textPosition st).

Definition setShapes (v : list Shape.t) (st : EditorState) : EditorState :=
  mkState (screenshot st) (tool st) (color st) (strokeWidth st) v
          (isDrawing st) (selectedId st) (textInput st) (textPosition st).

Definition setIsDrawing (v : bool) (st : EditorState) : EditorState :=
  mkState (screenshot st) (tool st) (color st) (strokeWidth st) (shapes st) v
          (selectedId st) (textInput st) (textPosition st).

Definition setSelectedId (v : option string) (st : EditorState) : EditorState :=
  mkState (screenshot st) (tool st) (color st) (strokeWidth st) (shapes st)
          (isDrawing st) v (textInput st) (textPosition st).

Definition setTextInput (v : string) (st : EditorState) : EditorState :=
  mkState (screenshot st) (tool st) (color st) (strokeWidth st) (shapes st)
          (isDrawing st) (selectedId st) v (textPosition st).

Definition setTextPosition (v : option Pos.t) (st : EditorState) : EditorState :=
  mkState (screenshot st) (tool st) (color st) (strokeWidth st) (shapes st)
          (isDrawing st) (selectedId st) (textInput st) v.

(** ** JavaScript helpers *)

(** Truthiness of a string: only the empty string is falsy. *)
Definition truthy (s : string) : bool :=
  match s with EmptyString => false | String _ _ => true end.

(** [v || 0] on [number | undefined] (0 is itself falsy). *)
Definition or0 (v : option Z) : Z := default 0 v.

(** [a.slice(0, -1)] *)
Definition slice_0_m1 {A} (l : list A) : list A := take (length l - 1)%nat l.

(** [a[i]]: [undefined] past the end. *)
Definition index (a : list (option Z)) (i : nat) : option Z :=
  mjoin (a !! i).

(** [`shape-${Date.now()}`] *)
Definition shapeId (now : Z) : string :=
  String.append "shape-" (NilZero.string_of_int (Z.to_int now)).

(** What the handlers read from a Konva mouse event [e]:
    [e.target === e.target.getStage()], [e.target.className] and
    [e.target.getStage().getPointerPosition()]. *)
Record MouseEvent : Set := mkEvent {
  targetIsStage : bool;
  targetClassName : string;
  getPointerPosition : Pos.t
}.

Definition clickedOnEmpty (e : MouseEvent) : bool :=
  targetIsStage e || String.eqb (targetClassName e) "Image".

(** ** Event handlers *)

(** The ["screenshot-taken"] listener: [loadImage] only creates an image
    element (its [onload] runs later, see [imgOnload]), then
    [setShapes([])]. *)
Definition screenshotTaken (payload : string) (st : EditorState) : EditorState :=
  setShapes [] st.

(** [img.onload] of [loadImage], as far as the annotation state goes. *)
Definition imgOnload (dataUrl : string) (st : EditorState) : EditorState :=
  setScreenshot (Some dataUrl) st.

Definition handleMouseDown (e : MouseEvent) (now : Z) (st : EditorState)
  : EditorState :=
  match tool st with
  | select =>
      if clickedOnEmpty e then setSelectedId None st else st
  | text =>
      setTextPosition (Some (getPointerPosition e)) st
  | t =>
      let st1 := setIsDrawing true st in
      let pos := getPointerPosition e in
      let id := shapeId now in
      match t with
      | pen | highlighter =>
          setShapes
            (shapes st ++
             [Shape.mk id t (Some [Some (Pos.x pos); Some (Pos.y pos)])
                None None None None None None
                (if decide (t = highlighter)
                 then String.append (color st) "80" else color st)
                (if decide (t = highlighter)
                 then strokeWidth st * 4 else strokeWidth st)])
            st1
      | arrow =>
          setShapes
            (shapes st ++
             [Shape.mk id t
                (Some [Some (Pos.x pos); Some (Pos.y pos);
                       Some (Pos.x pos); Some (Pos.y pos)])
                None None None None None None (color st) (strokeWidth st)])
            st1
      | rect | circle =>
          setShapes
            (shapes st ++
             [Shape.mk id t None (Some (Pos.x pos)) (Some (Pos.y pos))
                (Some 0) (Some 0) (Some (Exact 0)) None
                (color st) (strokeWidth st)])
            st1
      | _ => st1
      end
  end.

Definition handleMouseMove (e : MouseEvent) (st : EditorState) : EditorState :=
  if negb (isDrawing st) then st else
  let pos := getPointerPosition e in
  match last (shapes st) with
  | None => st
  | Some lastShape =>
      match tool st with
      | pen | highlighter =>
          let newPoints :=
            default [] (Shape.points lastShape)
              ++ [Some (Pos.x pos); Some (Pos.y pos)] in
          setShapes
            (slice_0_m1 (shapes st) ++ [Shape.with_points newPoints lastShape])
            st
      | arrow =>
          let points :=
            default [Some 0; Some 0; Some 0; Some 0] (Shape.points lastShape) in
          setShapes
            (slice_0_m1 (shapes st) ++
             [Shape.with_points
                [index points 0; index points 1;
                 Some (Pos.x pos); Some (Pos.y pos)] lastShape])
            st
      | rect =>
          setShapes
            (slice_0_m1 (shapes st) ++
             [Shape.with_width_height
                (Pos.x pos - or0 (Shape.x lastShape))
                (Pos.y pos - or0 (Shape.y lastShape)) lastShape])
            st
      | circle =>
          let dx := Pos.x pos - or0 (Shape.x lastShape) in
          let dy := Pos.y pos - or0 (Shape.y lastShape) in
          setShapes
            (slice_0_m1 (shapes st) ++
             [Shape.with_radius (MathSqrt (dx * dx + dy * dy)) lastShape])
            st
      | _ => st
      end
  end.

Definition handleMouseUp (st : EditorState) : EditorState :=
  setIsDrawing false st.

Definition addText (now : Z) (st : EditorState) : EditorState :=
  match textPosition st with
  | Some textPos =>
      if truthy (textInput st) then
        setTextPosition None
          (setTextInput ""
             (setShapes
                (shapes st ++
                 [Shape.mk (shapeId now) text None
                    (Some (Pos.x textPos)) (Some (Pos.y textPos))
                    None None None (Some (textInput st))
                    (color st) (strokeWidth st)])
                st))
      else st
  | None => st
  end.

Definition undo (st : EditorState) : EditorState :=
  setSelectedId None (setShapes (slice_0_m1 (shapes st)) st).

Definition clearAll (st : EditorState) : EditorState :=
  setSelectedId None (setShapes [] st).

Definition deleteSelected (st : EditorState) : EditorState :=
  match selectedId st with
  | Some sel =>
      if truthy sel then
        setSelectedId None
          (setShapes (filter (fun s => Shape.id s <> sel) (shapes st)) st)
      else st
  | None => st
  end.

(** [onClick] of a rendered shape:
    [tool === "select" && setSelectedId(shape.id)]. *)
Definition shapeOnClick (id : string) (st : EditorState) : EditorState :=
  if decide (tool st = select) then setSelectedId (Some id) st else st.

(** The Cancel button of the text overlay. *)
Definition cancelText (st : EditorState) : EditorState :=
  setTextPosition None st.

(** ** The editor as a transition system *)

(** Every way the component's state changes after the first render. *)
Inductive Event : Set :=
  | MouseDown (e : MouseEvent) (now : Z)
  | MouseMove (e : MouseEvent)
  | MouseUp
  | ToolButton (t : Tool)
  | ColorButton (c : string)
  | SizeSlider (w : Z)
  | TextChange (s : string)
  | TextConfirm (now : Z)
  | TextCancel
  | UndoButton
  | ClearButton
  | DeleteButton
  | ShapeClick (id : string)
  | ScreenshotTaken (payload : string)
  | ImageLoaded (dataUrl : string).

Definition step (ev : Event) (st : EditorState) : EditorState :=
  match ev with
  | MouseDown e now => handleMouseDown e now st
  | MouseMove e => handleMouseMove e st
  | MouseUp => handleMouseUp st
  | ToolButton t => setTool t st
  | ColorButton c => setColor c st
  | SizeSlider w => setStrokeWidth w st
  | TextChange s => setTextInput s st
  | TextConfirm now => addText now st
  | TextCancel => cancelText st
  | UndoButton => undo st
  | ClearButton => clearAll st
  | DeleteButton => deleteSelected st
  | ShapeClick id => shapeOnClick id st
  | ScreenshotTaken p => screenshotTaken p st
  | ImageLoaded d => imgOnload d st
  end.

(** Events are handled one after the other, each on the state left by the
    previous one. *)
Definition run (evs : list Event) (st : EditorState) : EditorState :=
  fold_left (fun s ev => step ev s) evs st.

(** ** Vocabulary of the properties *)

(** The flat coordinate array [x0, y0, x1, y1, ...] of a list of positions. *)
Fixpoint coords (ps : list Pos.t) : list (option Z) :=
  match ps with
  | [] => []
  | p :: ps' => Some (Pos.x p) :: Some (Pos.y p) :: coords ps'
  end.

(** Reading a flat coordinate array back, two slots per position; [None]
    when a slot is [undefined] or a coordinate is left over. *)
Fixpoint positions (a : list (option Z)) : option (list Pos.t) :=
  match a with
  | [] => Some []
  | Some px :: Some py :: a' =>
      match positions a' with
      | Some ps => Some (Pos.mk px py :: ps)
      | None => None
      end
  | _ => None
  end.

(** The point sequence of a stroke: its [points] array read as (x, y)
    positions; [None] when the shape has no [points] or the array does not
    split into positions. *)
Definition strokePositions (s : Shape.t) : option (list Pos.t) :=
  match Shape.points s with
  | Some a => positions a
  | None => None
  end.

(** A pointer event at [(px, py)] over the base image. *)
Definition pointerAt (px py : Z) : MouseEvent :=
  mkEvent false "Image" (Pos.mk px py).





(** A state with three shapes, the second of which is selected. *)
Definition threeShapes : EditorState :=
  mkState (Some "data:image/png;base64,AAAA") select "#ff0000" 3
    [ Shape.mk "shape-1" pen (Some [Some 1; Some 1; Some 5; Some 5])
        None None None None None None "#ff0000" 3;
      Shape.mk "shape-2" rect None (Some 10) (Some 10) (Some 40) (Some 20)
        (Some (Exact 0)) None "#00ff00" 3;
      Shape.mk "shape-3" text None (Some 7) (Some 9) None None None
        (Some "note") "#000000" 3 ]
    false (Some "shape-2") "" None.

(** The state in which the text overlay is open at [pos] and holds [txt]:
    a pointer-down with the text tool, then typing. *)
Definition typing (pos : Pos.t) (txt : string) (st : EditorState) : EditorState :=
  setTextInput txt (setTextPosition (Some pos) st).



(** ** Toolbar, palette and what the rendered page lets through *)

(** [const tools: { id: Tool; icon: string; label: string }[]] *)
Record ToolEntry : Set := mkTool {
  tool_id : Tool;
  tool_icon : string;
  tool_label : string
}.

Definition tools : list ToolEntry :=
  [ mkTool select "↖" "Select";
    mkTool pen "✏️" "Pen";
    mkTool highlighter "🖍️" "Highlight";
    mkTool arrow "→" "Arrow";
    mkTool rect "□" "Rectangle";
    mkTool circle "○" "Circle";
    mkTool text "T" "Text" ].

Definition colors : list string :=
  [ "#ff0000"; "#00ff00"; "#0066ff"; "#ffff00";
    "#ff00ff"; "#00ffff"; "#ffffff"; "#000000" ]%string.

(** The events the rendered page can deliver in state [st]: a tool button
    per entry of [tools], a colour button per entry of [colors], the range
    input with [min="1" max="20"], the Stage (and with it the shapes'
    [onClick]) only once a screenshot is there, the text overlay only while
    [textPosition] is set, and the delete button unless
    [disabled={!selectedId}]. *)
Definition offered (st : EditorState) (ev : Event) : bool :=
  match ev with
  | ToolButton t => bool_decide (t ∈ tool_id <$> tools)
  | ColorButton c => bool_decide (c ∈ colors)
  | SizeSlider w => (1 <=? w) && (w <=? 20)
  | MouseDown _ _ | MouseMove _ | MouseUp =>
      bool_decide (is_Some (screenshot st))
  | ShapeClick id =>
      bool_decide (is_Some (screenshot st))
      && bool_decide (id ∈ Shape.id <$> shapes st)
  | TextChange _ | TextConfirm _ | TextCancel =>
      bool_decide (is_Some (textPosition st))
  | DeleteButton =>
      match selectedId st with Some sel => truthy sel | None => false end
  | UndoButton | ClearButton | ScreenshotTaken _ | ImageLoaded _ => true
  end.

(** A trace every event of which is offered by the page in the state it
    arrives in. *)
Fixpoint offered_trace (evs : list Event) (st : EditorState) : bool :=
  match evs with
  | [] => true
  | ev :: evs' => offered st ev && offered_trace evs' (step ev st)
  end.

(** The clock readings a trace makes: one per pointer-down and one per text
    confirmation. *)
Fixpoint clock (evs : list Event) : list Z :=
  match evs with
  | [] => []
  | MouseDown _ now :: evs' => now :: clock evs'
  | TextConfirm now :: evs' => now :: clock evs'
  | _ :: evs' => clock evs'
  end.

Definition is_screenshot_taken (ev : Event) : bool :=
  match ev with ScreenshotTaken _ => true | _ => false end.

(** ** Rendering *)

(** The react-konva elements [shapes.map] returns, with the props the source
    passes. *)
Inductive KonvaNode : Type :=
  | Line (key id : string) (points : option (list (option Z)))
      (stroke : string) (strokeWidth : Z) (tension : QArith_base.Q)
      (lineCap lineJoin globalCompositeOperation : string)
      (draggable : bool) (onClick : EditorState -> EditorState)
  | Arrow (key id : string) (points : list (option Z))
      (stroke : string) (strokeWidth : Z) (fill : string)
      (draggable : bool) (onClick : EditorState -> EditorState)
  | Rect (key id : string) (x y width height : option Z)
      (stroke : string) (strokeWidth : Z)
      (draggable : bool) (onClick : EditorState -> EditorState)
  | Circle (key id : string) (x y : option Z) (radius : option Radius)
      (stroke : string) (strokeWidth : Z)
      (draggable : bool) (onClick : EditorState -> EditorState)
  | Text (key id : string) (x y : option Z) (text : option string)
      (fontSize : Z) (fill : string)
      (draggable : bool) (onClick : EditorState -> EditorState).

(** The callback of [shapes.map] in the render of a state whose active tool
    is [active]; [None] is [return null]. *)
Definition renderShape (active : Tool) (shape : Shape.t) : option KonvaNode :=
  let draggable := bool_decide (active = select) in
  let onClick := fun st : EditorState =>
    if decide (active = select)
    then setSelectedId (Some (Shape.id shape)) st else st in
  match Shape.tool shape with
  | pen | highlighter =>
      Some (Line (Shape.id shape) (Shape.id shape) (Shape.points shape)
              (Shape.color shape) (Shape.strokeWidth shape)
              (QArith_base.Qmake 1 2) "round" "round"
              (if decide (Shape.tool shape = highlighter)
               then "multiply" else "source-over")
              draggable onClick)
  | arrow =>
      Some (Arrow (Shape.id shape) (Shape.id shape)
              (default [] (Shape.points shape))
              (Shape.color shape) (Shape.strokeWidth shape)
              (Shape.color shape) draggable onClick)
  | rect =>
      Some (Rect (Shape.id shape) (Shape.id shape)
              (Shape.x shape) (Shape.y shape)
              (Shape.width shape) (Shape.height shape)
              (Shape.color shape) (Shape.strokeWidth shape)
              draggable onClick)
  | circle =>
      Some (Circle (Shape.id shape) (Shape.id shape)
              (Shape.x shape) (Shape.y shape) (Shape.radius shape)
              (Shape.color shape) (Shape.strokeWidth shape)
              draggable onClick)
  | text =>
      Some (Text (Shape.id shape) (Shape.id shape)
              (Shape.x shape) (Shape.y shape) (Shape.text shape)
              (Shape.strokeWidth shape * 6) (Shape.color shape)
              draggable onClick)
  | select | crop => None
  end.

Definition node_id (n : KonvaNode) : string :=
  match n with
  | Line _ id _ _ _ _ _ _ _ _ _ | Arrow _ id _ _ _ _ _ _
  | Rect _ id _ _ _ _ _ _ _ _ | Circle _ id _ _ _ _ _ _ _
  | Text _ id _ _ _ _ _ _ _ => id
  end.

(** The shape elements of the layer: React drops the [null]s. *)
Definition renderShapes (st : EditorState) : list KonvaNode :=
  omap (renderShape (tool st)) (shapes st).

(** ** Clipboard export *)

(** The condition under which the auto-copy effect arms its 300 ms timer:
    [shapes.length > 0 && !isDrawing]. *)
Definition autoCopyArmed (st : EditorState) : bool :=
  (0 <? length (shapes st))%nat && negb (isDrawing st).

Definition pngPrefix : string := "data:image/png;base64,".

(** [s] without the leading [p], when [s] starts with [p]. *)
Fixpoint afterPrefix (p s : string) : option string :=
  match p, s with
  | EmptyString, _ => Some s
  | String a p', String b s' =>
      if Ascii.eqb a b then afterPrefix p' s' else None
  | String _ _, EmptyString => None
  end.

(** [dataUrl.replace(/^data:image\/png;base64,/, "")] *)
Definition stripPngPrefix (dataUrl : string) : string :=
  default dataUrl (afterPrefix pngPrefix dataUrl).

(** [s.charCodeAt(i)]; [None] is [NaN], past the end.  [s] is the binary
    string [atob] returns, whose code units are below 256. *)
Definition charCodeAt (s : string) (i : nat) : option N :=
  Ascii.N_of_ascii <$> String.get i s.

(** The store into a [Uint8Array] slot: modulo 256, [NaN] as 0. *)
Definition toUint8 (v : option N) : N := (default 0 v mod 256)%N.

(** [for (let i = ...; i < binaryString.length; i++)
       bytes[i] = binaryString.charCodeAt(i)], with [todo] iterations
    left. *)
Fixpoint fillBytes (binaryString : string) (todo i : nat) (bytes : list N)
  : list N :=
  match todo with
  | O => bytes
  | S todo' =>
      fillBytes binaryString todo' (S i)
        (<[i := toUint8 (charCodeAt binaryString i)]> bytes)
  end.

(** [new Uint8Array(binaryString.length)] filled by the loop. *)
Definition binaryToBytes (binaryString : string) : list N :=
  fillBytes binaryString (String.length binaryString) 0
    (replicate (String.length binaryString) 0%N).

(** ** Drags *)

(** The tools for which a pointer-down appends a shape. *)
Definition draws (t : Tool) : bool :=
  match t with
  | pen | highlighter | arrow | rect | circle => true
  | select | text | crop => false
  end.

(** The object literal [handleMouseDown] appends for tool [t]. *)
Definition started (t : Tool) (pos : Pos.t) (now : Z) (st : EditorState)
  : Shape.t :=
  match t with
  | arrow =>
      Shape.mk (shapeId now) t
        (Some [Some (Pos.x pos); Some (Pos.y pos);
               Some (Pos.x pos); Some (Pos.y pos)])
        None None None None None None (color st) (strokeWidth st)
  | rect | circle =>
      Shape.mk (shapeId now) t None (Some (Pos.x pos)) (Some (Pos.y pos))
        (Some 0) (Some 0) (Some (Exact 0)) None (color st) (strokeWidth st)
  | _ =>
      Shape.mk (shapeId now) t (Some [Some (Pos.x pos); Some (Pos.y pos)])
        None None None None None None
        (if decide (t = highlighter)
         then String.append (color st) "80" else color st)
        (if decide (t = highlighter)
         then strokeWidth st * 4 else strokeWidth st)
  end.

(** What [handleMouseMove] puts in place of the last shape [s] under tool
    [t]. *)
Definition dragged (t : Tool) (pos : Pos.t) (s : Shape.t) : Shape.t :=
  match t with
  | pen | highlighter =>
      Shape.with_points
        (default [] (Shape.points s) ++ [Some (Pos.x pos); Some (Pos.y pos)])
        s
  | arrow =>
      let points :=
        default [Some 0; Some 0; Some 0; Some 0] (Shape.points s) in
      Shape.with_points
        [index points 0; index points 1; Some (Pos.x pos); Some (Pos.y pos)]
        s
  | rect =>
      Shape.with_width_height
        (Pos.x pos - or0 (Shape.x s)) (Pos.y pos - or0 (Shape.y s)) s
  | circle =>
      let dx := Pos.x pos - or0 (Shape.x s) in
      let dy := Pos.y pos - or0 (Shape.y s) in
      Shape.with_radius (MathSqrt (dx * dx + dy * dy)) s
  | _ => s
  end.

(** A whole drag: pointer-down, pointer-moves, pointer-up. *)
Definition drag (e0 : MouseEvent) (now : Z) (es : list MouseEvent)
  : list Event :=
  MouseDown e0 now :: map MouseMove es ++ [MouseUp].

(** The position of the last event of a drag. *)
Definition lastPosition (e0 : MouseEvent) (es : list MouseEvent) : Pos.t :=
  getPointerPosition (default e0 (last es)).

(** ** Properties of whole states *)

(** The ids of the list, in list order. *)
Definition ids (st : EditorState) : list string := Shape.id <$> shapes st.

(** A shape the layer has an element for: its kind is one of the five
    drawing tools or text. *)
Definition has_element (s : Shape.t) : Prop :=
  Shape.tool s <> select /\ Shape.tool s <> crop.

(** A shape made from palette settings: a non-empty id; for a highlighter
    stroke a palette colour with "80" appended and four times a slider
    width, for any other shape a palette colour and a slider width. *)
Definition palette_shape (s : Shape.t) : Prop :=
  truthy (Shape.id s) = true /\
  if decide (Shape.tool s = highlighter)
  then exists c w, c ∈ colors /\ 1 <= w <= 20 /\
                   Shape.color s = String.append c "80" /\
                   Shape.strokeWidth s = w * 4
  else Shape.color s ∈ colors /\ 1 <= Shape.strokeWidth s <= 20.

(** What holds of every state the page can reach. *)
Definition page_state (st : EditorState) : Prop :=
  tool st ∈ tool_id <$> tools /\
  color st ∈ colors /\
  1 <= strokeWidth st <= 20 /\
  Forall palette_shape (shapes st) /\
  (forall i, selectedId st = Some i -> truthy i = true).

(** The selected id, if any, is the id of a shape of the list. *)
Definition selection_in_list (st : EditorState) : Prop :=
  forall i, selectedId st = Some i -> i ∈ ids st.

(** ** Facts about the helpers *)

Lemma slice_0_m1_snoc {A} (l : list A) (a : A) : slice_0_m1 (l ++ [a]) = l.
Proof.
  unfold slice_0_m1. rewrite length_app. simpl.
  replace (length l + 1 - 1)%nat with (length l) by lia.
  by rewrite take_app_length.
Qed.

Lemma truthy_nonempty (s : string) : truthy s = true <-> s <> ""%string.
Proof. destruct s; simpl; split; intros; congruence. Qed.

Lemma shapeId_truthy (now : Z) : truthy (shapeId now) = true.
Proof. reflexivity. Qed.

Lemma positions_coords (ps : list Pos.t) : positions (coords ps) = Some ps.
Proof.
  induction ps as [|[px py] ps IH]; simpl; [done|]. by rewrite IH.
Qed.

Lemma coords_length (ps : list Pos.t) :
  length (coords ps) = (2 * length ps)%nat.
Proof. induction ps as [|p ps IH]; simpl; lia. Qed.

(** ** The screenshot-taken notification *)

Lemma screenshotTaken_shapes (payload : string) (st : EditorState) :
  shapes (screenshotTaken payload st) = [].
Proof. reflexivity. Qed.

Lemma screenshotTaken_selectedId (payload : string) (st : EditorState) :
  selectedId (screenshotTaken payload st) = selectedId st.
Proof. reflexivity. Qed.

(** C1.  The "screenshot-taken" listener, run on the state with three
    shapes of which "shape-2" is selected, empties the Shape List but leaves
    the Selection State at "shape-2": the listener calls [setShapes([])] and
    nothing else, whereas [clearAll] resets both.  The claim asks for both
    to be reset. *)
Theorem C1_screenshot_taken_keeps_selection :
  length (shapes threeShapes) = 3%nat /\
  selectedId threeShapes = Some "shape-2"%string /\
  shapes (screenshotTaken "data:image/png;base64,BBBB" threeShapes) = [] /\
  selectedId (screenshotTaken "data:image/png;base64,BBBB" threeShapes)
    = Some "shape-2"%string /\
  selectedId (clearAll threeShapes) = None.
Proof. repeat split. Qed.

(** ** Text entry *)

(** C2, counterexample.  Confirming the empty string with an entry pending
    at (10,10) appends nothing and leaves the entry pending: the guard
    [if (!textInput || !textPosition) return] comes before
    [setTextPosition(null)]. *)
Lemma C2_empty_text_keeps_pending :
  shapes (addText 7 (typing (Pos.mk 10 10) "" initialState)) = [] /\
  textPosition (addText 7 (typing (Pos.mk 10 10) "" initialState))
    = Some (Pos.mk 10 10).
Proof. split; reflexivity. Qed.

(** C2, amended.  For every pending position and every input string,
    [addText] appends a text Shape (at the pending position, with the
    current colour and stroke width) exactly when the string is non-empty,
    and in that case also clears the pending entry and the input; with the
    empty string it leaves the whole state, pending entry included, as it
    was. *)
Theorem C2_addText_amended (st : EditorState) (pos : Pos.t) (txt : string)
    (now : Z) :
  addText now (typing pos txt st) =
    if decide (txt = ""%string) then typing pos txt st
    else
      setTextPosition None
        (setTextInput ""
           (setShapes
              (shapes st ++
               [Shape.mk (shapeId now) text None
                  (Some (Pos.x pos)) (Some (Pos.y pos)) None None None
                  (Some txt) (color st) (strokeWidth st)])
              (typing pos txt st))).
Proof.
  destruct (decide (txt = ""%string)) as [->|Hne]; [reflexivity|].
  unfold addText, typing; simpl.
  destruct txt; [done|reflexivity].
Qed.

(** ** Selection *)

(** C3, counterexample.  With "shape-2" selected under the selection tool,
    pressing the pen button keeps the selection, and so does a pointer-down
    with the pen then active. *)
Lemma C3_selection_survives_tool_change :
  tool threeShapes = select /\
  selectedId (setTool pen threeShapes) = Some "shape-2"%string /\
  selectedId (handleMouseDown (pointerAt 0 0) 9 (setTool pen threeShapes))
    = Some "shape-2"%string.
Proof. repeat split. Qed.

(** C3, amended.  Changing the active tool never changes the Selection
    State, and a pointer-down changes it only with the selection tool
    active and the pointer on the empty stage or on the base image, where it
    clears it; with any other tool active (pen, highlighter, arrow, rect,
    circle, text, crop) a pointer-down leaves the Selection State as it
    was. *)
Theorem C3_selection_amended (st : EditorState) (t : Tool) (e : MouseEvent)
    (now : Z) :
  selectedId (setTool t st) = selectedId st /\
  selectedId (handleMouseDown e now st) =
    if decide (tool st = select) then
      if clickedOnEmpty e then None else selectedId st
    else selectedId st.
Proof.
  split; [reflexivity|].
  unfold handleMouseDown.
  destruct (tool st); simpl; try reflexivity.
  by destruct (clickedOnEmpty e).
Qed.

(** ** Freehand strokes *)

Lemma setShapes_same (st : EditorState) : setShapes (shapes st) st = st.
Proof. by destruct st. Qed.

(** Pointer-moves of one drag with a stroke tool: every move replaces the
    last shape by itself with two more coordinates. *)
Lemma moves_extend_stroke (es : list MouseEvent) :
  forall (st : EditorState) (init : list Shape.t) (sh : Shape.t)
         (pts : list (option Z)),
    isDrawing st = true ->
    tool st = pen \/ tool st = highlighter ->
    shapes st = init ++ [sh] ->
    Shape.points sh = Some pts ->
    run (map MouseMove es) st =
      setShapes
        (init ++
         [Shape.with_points (pts ++ coords (map getPointerPosition es)) sh])
        st.
Proof.
  induction es as [|e es IH]; intros st init sh pts Hd Ht Hs Hp; simpl.
  - rewrite app_nil_r. rewrite <- (setShapes_same st) at 1. rewrite Hs.
    do 3 f_equal. destruct sh; simpl in *; by subst.
  - assert (Hstep : handleMouseMove e st =
              setShapes
                (init ++
                 [Shape.with_points
                    (pts ++ [Some (Pos.x (getPointerPosition e));
                             Some (Pos.y (getPointerPosition e))]) sh]) st).
    { unfold handleMouseMove. rewrite Hd, Hs, last_snoc, slice_0_m1_snoc, Hp.
      simpl. by destruct Ht as [-> | ->]. }
    unfold run in *. rewrite Hstep.
    erewrite IH; [| done | done | reflexivity | reflexivity].
    unfold setShapes; simpl. do 3 f_equal.
    unfold Shape.with_points; simpl. f_equal.
    by rewrite <- app_assoc.
Qed.

(** C4, counterexample.  A press at (10,10) released at once with the pen
    appends a stroke of a single point: its [points] array is
    [[10, 10]], the two coordinates of one position, so the point
    sequence has length 1, not at least 2. *)
Lemma C4_press_release_single_point :
  exists s : Shape.t,
    shapes (run [MouseDown (pointerAt 10 10) 5; MouseUp] initialState) = [s] /\
    Shape.tool s = pen /\
    Shape.points s = Some [Some 10; Some 10] /\
    strokePositions s = Some [Pos.mk 10 10] /\
    length <$> strokePositions s = Some 1%nat.
Proof. eexists. repeat split. Qed.

(** C4, amended.  With the pen or the highlighter active, a pointer-down
    at [e0] followed by any number of pointer-moves [es] and a pointer-up
    appends one Shape whose point sequence is the positions in the order
    they arrived, one point per position: 1 + the number of moves, so at
    least 1, and at least 2 exactly when at least one move arrived.  Its
    [points] array is the flat coordinate list of those positions, of twice
    that length. *)
Theorem C4_stroke_points_amended (st : EditorState) (e0 : MouseEvent)
    (es : list MouseEvent) (now : Z) :
  tool st = pen \/ tool st = highlighter ->
  let supplied := getPointerPosition e0 :: map getPointerPosition es in
  exists s : Shape.t,
    shapes (run (MouseDown e0 now :: map MouseMove es ++ [MouseUp]) st)
      = shapes st ++ [s] /\
    Shape.tool s = tool st /\
    strokePositions s = Some supplied /\
    length supplied = (1 + length es)%nat /\
    (1 <= length supplied)%nat /\
    ((2 <= length supplied)%nat <-> es <> []) /\
    Shape.points s = Some (coords supplied) /\
    length (coords supplied) = (2 * (1 + length es))%nat.
Proof.
  intros Ht supplied.
  set (sh0 :=
    Shape.mk (shapeId now) (tool st)
      (Some [Some (Pos.x (getPointerPosition e0));
             Some (Pos.y (getPointerPosition e0))])
      None None None None None None
      (if decide (tool st = highlighter)
       then String.append (color st) "80" else color st)
      (if decide (tool st = highlighter)
       then strokeWidth st * 4 else strokeWidth st)).
  assert (Hdown : handleMouseDown e0 now st =
            setShapes (shapes st ++ [sh0]) (setIsDrawing true st)).
  { unfold handleMouseDown, sh0. by destruct Ht as [-> | ->]. }
  assert (Hlen : length supplied = (1 + length es)%nat).
  { subst supplied. simpl. by rewrite length_map. }
  exists (Shape.with_points (coords supplied) sh0).
  split; [| split; [reflexivity |]].
  - unfold run. simpl. rewrite fold_left_app. simpl.
    rewrite Hdown.
    pose proof (moves_extend_stroke es
      (setShapes (shapes st ++ [sh0]) (setIsDrawing true st))
      (shapes st) sh0 _ eq_refl Ht eq_refl eq_refl) as Hm.
    unfold run in Hm. rewrite Hm. reflexivity.
  - split; [exact (positions_coords supplied) |].
    split; [exact Hlen |]. split; [lia |]. split.
    + rewrite Hlen. destruct es; simpl; split; intros; try done; lia.
    + split; [reflexivity |]. rewrite coords_length. lia.
Qed.

Lemma C4_stroke_points_amended_witness :
  (tool initialState = pen \/ tool initialState = highlighter) /\
  exists s : Shape.t,
    shapes (run (MouseDown (pointerAt 10 10) 5
                 :: map MouseMove [pointerAt 20 20; pointerAt 30 10]
                 ++ [MouseUp]) initialState)
      = shapes initialState ++ [s] /\
    Shape.tool s = pen /\
    strokePositions s = Some [Pos.mk 10 10; Pos.mk 20 20; Pos.mk 30 10] /\
    Shape.points s =
      Some [Some 10; Some 10; Some 20; Some 20; Some 30; Some 10].
Proof.
  split; [left; reflexivity |].
  destruct (C4_stroke_points_amended initialState (pointerAt 10 10)
              [pointerAt 20 20; pointerAt 30 10] 5 (or_introl eq_refl))
    as (s & Hs & Ht & Hpos & _ & _ & _ & Hp & _).
  exists s. auto.
Defined.

(** ** Which fields a shape carries *)

















(** ** Undo, clear and delete *)

Lemma undo_iter_shapes (N : nat) (st : EditorState) :
  shapes (Nat.iter N undo st) = take (length (shapes st) - N)%nat (shapes st).
Proof.
  induction N as [|N IH]; simpl.
  - rewrite Nat.sub_0_r. by rewrite firstn_all.
  - unfold slice_0_m1. rewrite IH, take_take, length_take. f_equal. lia.
Qed.

(** C6.  Applying [undo] N times to a Shape List of M shapes leaves its
    first M - min(N, M) shapes: the min(N, M) shapes removed are the tail of
    the list.  One application removes the last element, does nothing to an
    empty list, and clears the Selection State. *)
Theorem C6_undo_iterated (st : EditorState) (N : nat) (l : list Shape.t)
    (a : Shape.t) :
  let M := length (shapes st) in
  let after := shapes (Nat.iter N undo st) in
  after = take (M - Nat.min N M)%nat (shapes st) /\
  length after = (M - Nat.min N M)%nat /\
  shapes st = after ++ drop (M - Nat.min N M)%nat (shapes st) /\
  length (drop (M - Nat.min N M)%nat (shapes st)) = Nat.min N M /\
  shapes (undo (setShapes (l ++ [a]) st)) = l /\
  shapes (undo (setShapes [] st)) = [] /\
  selectedId (undo st) = None /\
  selectedId (Nat.iter (S N) undo st) = None.
Proof.
  intros M after. subst after. rewrite undo_iter_shapes. fold M.
  replace (M - Nat.min N M)%nat with (M - N)%nat by lia.
  repeat split.
  - rewrite length_take. lia.
  - by rewrite take_drop.
  - rewrite length_drop. lia.
  - simpl. apply slice_0_m1_snoc.
Qed.

(** C8.  On every state, [clearAll] followed by [undo] gives the state
    [clearAll] alone gives: the Shape List is empty, the Selection State is
    none, and [undo] changes nothing there. *)
Theorem C8_clear_then_undo (st : EditorState) :
  undo (clearAll st) = clearAll st /\
  shapes (clearAll st) = [] /\
  selectedId (clearAll st) = None /\
  run [ClearButton; UndoButton] st = run [ClearButton] st.
Proof. repeat split. Qed.

Lemma filter_all {A} (P : A -> Prop) `{!forall a, Decision (P a)} (l : list A) :
  (forall a, a ∈ l -> P a) -> filter P l = l.
Proof.
  induction l as [|b l IH]; intros Hall; [done|].
  rewrite filter_cons_True by (apply Hall; left).
  f_equal. apply IH. intros a Ha. apply Hall. by right.
Qed.

(** With pairwise distinct ids, filtering out the id of the shape at index
    [i] deletes that one element. *)
Lemma filter_id_delete (l : list Shape.t) :
  forall (i : nat) (s : Shape.t),
    NoDup (Shape.id <$> l) -> l !! i = Some s ->
    filter (fun s' => Shape.id s' <> Shape.id s) l = delete i l.
Proof.
  induction l as [|b l IH]; intros i s Hnd Hi; [done|].
  rewrite fmap_cons in Hnd. apply NoDup_cons in Hnd as [Hb Hnd].
  destruct i as [|i]; simpl in Hi.
  - injection Hi as ->. rewrite filter_cons_False by (intros Hnot; by apply Hnot).
    simpl. apply filter_all. intros a Ha Heq. apply Hb. rewrite <- Heq.
    by apply list_elem_of_fmap_2.
  - rewrite filter_cons_True.
    + simpl. f_equal. by apply IH.
    + intros Heq. apply Hb. rewrite Heq.
      apply list_elem_of_fmap_2. by eapply list_elem_of_lookup_2.
Qed.

(** C9.  With no selection, [deleteSelected] returns the state it was given.
    With a selection [sel] (a non-empty id, as every id the editor makes
    is), it keeps exactly the shapes whose id differs from [sel], in their
    order, clears the Selection State and touches nothing else; when ids
    are pairwise distinct and the selected shape sits at index [i], the
    result is the list with that one element deleted. *)
Theorem C9_deleteSelected (st : EditorState) :
  (selectedId st = None -> deleteSelected st = st) /\
  (forall sel : string,
     selectedId st = Some sel -> sel <> ""%string ->
     deleteSelected st =
       setSelectedId None
         (setShapes (filter (fun s => Shape.id s <> sel) (shapes st)) st)) /\
  (forall (sel : string) (i : nat) (s : Shape.t),
     selectedId st = Some sel -> sel <> ""%string ->
     NoDup (Shape.id <$> shapes st) ->
     shapes st !! i = Some s -> Shape.id s = sel ->
     shapes (deleteSelected st) = delete i (shapes st) /\
     selectedId (deleteSelected st) = None).
Proof.
  assert (Hsel : forall sel, selectedId st = Some sel -> sel <> ""%string ->
            deleteSelected st =
              setSelectedId None
                (setShapes (filter (fun s => Shape.id s <> sel) (shapes st)) st)).
  { intros sel Hs Hne. unfold deleteSelected. rewrite Hs.
    apply truthy_nonempty in Hne. by rewrite Hne. }
  split; [| split].
  - intros Hn. unfold deleteSelected. by rewrite Hn.
  - exact Hsel.
  - intros sel i s Hs Hne Hnd Hi Hid. rewrite (Hsel sel Hs Hne). simpl.
    split; [| reflexivity]. subst sel. by apply filter_id_delete.
Qed.

Lemma C9_deleteSelected_witness :
  (selectedId initialState = None /\
   deleteSelected initialState = initialState) /\
  (selectedId threeShapes = Some "shape-2"%string /\
   "shape-2"%string <> ""%string /\
   NoDup (Shape.id <$> shapes threeShapes) /\
   shapes threeShapes !! 1%nat
     = Some (Shape.mk "shape-2" rect None (Some 10) (Some 10) (Some 40)
               (Some 20) (Some (Exact 0)) None "#00ff00" 3) /\
   shapes (deleteSelected threeShapes) = delete 1%nat (shapes threeShapes) /\
   selectedId (deleteSelected threeShapes) = None).
Proof.
  assert (Hnd : NoDup (Shape.id <$> shapes threeShapes)).
  { apply (bool_decide_unpack _). reflexivity. }
  split.
  - split; [reflexivity |].
    apply (proj1 (C9_deleteSelected initialState)). reflexivity.
  - split; [reflexivity |]. split; [discriminate |]. split; [exact Hnd |].
    split; [reflexivity |].
    apply (proj2 (proj2 (C9_deleteSelected threeShapes))
             "shape-2"%string 1%nat
             (Shape.mk "shape-2" rect None (Some 10) (Some 10) (Some 40)
                (Some 20) (Some (Exact 0)) None "#00ff00" 3) eq_refl);
      [discriminate | exact Hnd | reflexivity | reflexivity].
Defined.

(** ** Rectangles *)

(** C7.  From any state, choosing the rectangle tool, pressing at (50,50),
    moving to (30,20) and releasing appends exactly one Shape: a rectangle
    with origin (50,50), width -20 and height -30.  In general a
    pointer-move with the rectangle tool during a drag replaces the last
    shape by itself with width and height set to the pointer position minus
    the shape's origin, whatever their sign. *)
Theorem C7_rect_extent :
  (forall (st : EditorState) (now : Z) (b0 b1 : bool) (c0 c1 : string),
     run [ToolButton rect;
          MouseDown (mkEvent b0 c0 (Pos.mk 50 50)) now;
          MouseMove (mkEvent b1 c1 (Pos.mk 30 20));
          MouseUp] st =
       setIsDrawing false
         (setShapes
            (shapes st ++
             [Shape.mk (shapeId now) rect None (Some 50) (Some 50)
                (Some (-20)) (Some (-30)) (Some (Exact 0)) None
                (color st) (strokeWidth st)])
            (setTool rect st))) /\
  (forall (st : EditorState) (e : MouseEvent) (init : list Shape.t)
          (lastShape : Shape.t) (ox oy : Z),
     isDrawing st = true -> tool st = rect ->
     shapes st = init ++ [lastShape] ->
     Shape.x lastShape = Some ox -> Shape.y lastShape = Some oy ->
     handleMouseMove e st =
       setShapes
         (init ++
          [Shape.with_width_height
             (Pos.x (getPointerPosition e) - ox)
             (Pos.y (getPointerPosition e) - oy) lastShape])
         st).
Proof.
  split.
  - intros st now b0 b1 c0 c1. unfold run; simpl.
    unfold handleMouseUp, handleMouseMove, handleMouseDown; simpl.
    rewrite last_snoc, slice_0_m1_snoc. reflexivity.
  - intros st e init lastShape ox oy Hd Ht Hs Hx Hy.
    unfold handleMouseMove.
    rewrite Hd, Hs, last_snoc, slice_0_m1_snoc, Ht, Hx, Hy. reflexivity.
Qed.

Lemma C7_rect_extent_witness :
  let st :=
    handleMouseDown (pointerAt 50 50) 5 (setTool rect threeShapes) in
  let drawn :=
    Shape.mk "shape-5" rect None (Some 50) (Some 50) (Some 0) (Some 0)
      (Some (Exact 0)) None "#ff0000" 3 in
  isDrawing st = true /\ tool st = rect /\
  shapes st = shapes threeShapes ++ [drawn] /\
  Shape.x drawn = Some 50 /\ Shape.y drawn = Some 50 /\
  handleMouseMove (pointerAt 30 20) st =
    setShapes
      (shapes threeShapes ++ [Shape.with_width_height (-20) (-30) drawn]) st.
Proof.
  intros st drawn. repeat (split; [reflexivity |]).
  apply (proj2 C7_rect_extent st (pointerAt 30 20) (shapes threeShapes)
           drawn 50 50); reflexivity.
Defined.

(** ** Pointer-move on an empty list *)

(** C10.  With an empty Shape List a pointer-move returns the state it was
    given, drawing-in-progress or not: [shapes[shapes.length - 1]] is
    [undefined] and the handler returns at [if (!lastShape) return]. *)
Theorem C10_move_on_empty_list (st : EditorState) (e : MouseEvent) :
  shapes st = [] -> handleMouseMove e st = st.
Proof.
  intros Hs. unfold handleMouseMove. rewrite Hs. simpl.
  by destruct (isDrawing st).
Qed.

Lemma C10_move_on_empty_list_witness :
  shapes (setIsDrawing true initialState) = [] /\
  isDrawing (setIsDrawing true initialState) = true /\
  handleMouseMove (pointerAt 30 20) (setIsDrawing true initialState)
    = setIsDrawing true initialState.
Proof.
  split; [reflexivity |]. split; [reflexivity |].
  apply (C10_move_on_empty_list (setIsDrawing true initialState)).
  reflexivity.
Defined.

(** ** Whole drags *)

Lemma handleMouseDown_started (e : MouseEvent) (now : Z) (st : EditorState) :
  draws (tool st) = true ->
  handleMouseDown e now st =
    setShapes (shapes st ++ [started (tool st) (getPointerPosition e) now st])
      (setIsDrawing true st).
Proof. unfold handleMouseDown, started. by destruct (tool st). Qed.

Lemma handleMouseMove_dragged (e : MouseEvent) (st : EditorState)
    (init : list Shape.t) (ls : Shape.t) :
  isDrawing st = true -> shapes st = init ++ [ls] ->
  handleMouseMove e st =
    setShapes (init ++ [dragged (tool st) (getPointerPosition e) ls]) st.
Proof.
  intros Hd Hs. unfold handleMouseMove, dragged.
  rewrite Hd, Hs, last_snoc, slice_0_m1_snoc. simpl.
  destruct (tool st); try reflexivity;
    rewrite <- Hs; symmetry; apply setShapes_same.
Qed.

Lemma moves_dragged (es : list MouseEvent) :
  forall (st : EditorState) (init : list Shape.t) (ls : Shape.t),
    isDrawing st = true -> shapes st = init ++ [ls] ->
    run (map MouseMove es) st =
      setShapes
        (init ++
         [fold_left (fun s e => dragged (tool st) (getPointerPosition e) s)
            es ls])
        st.
Proof.
  induction es as [|e es IH]; intros st init ls Hd Hs; simpl.
  - rewrite <- Hs. symmetry. apply setShapes_same.
  - unfold run in *. rewrite (handleMouseMove_dragged e st init ls Hd Hs).
    rewrite (IH (setShapes
                   (init ++ [dragged (tool st) (getPointerPosition e) ls]) st)
                init (dragged (tool st) (getPointerPosition e) ls) Hd eq_refl).
    reflexivity.
Qed.

(** The state a whole drag with a drawing tool leaves. *)
Lemma drag_run (st : EditorState) (e0 : MouseEvent) (now : Z)
    (es : list MouseEvent) :
  draws (tool st) = true ->
  run (drag e0 now es) st =
    setIsDrawing false
      (setShapes
         (shapes st ++
          [fold_left (fun s e => dragged (tool st) (getPointerPosition e) s)
             es (started (tool st) (getPointerPosition e0) now st)])
         st).
Proof.
  intros Ht. unfold drag, run. simpl. rewrite fold_left_app. simpl.
  rewrite (handleMouseDown_started _ _ _ Ht).
  pose proof (moves_dragged es
    (setShapes
       (shapes st ++ [started (tool st) (getPointerPosition e0) now st])
       (setIsDrawing true st))
    (shapes st) _ eq_refl eq_refl) as Hm.
  unfold run in Hm. rewrite Hm. reflexivity.
Qed.

Lemma dragged_id (t : Tool) (pos : Pos.t) (s : Shape.t) :
  Shape.id (dragged t pos s) = Shape.id s /\
  Shape.tool (dragged t pos s) = Shape.tool s /\
  Shape.color (dragged t pos s) = Shape.color s /\
  Shape.strokeWidth (dragged t pos s) = Shape.strokeWidth s.
Proof. by destruct t. Qed.

Lemma fold_dragged_id (t : Tool) (es : list MouseEvent) :
  forall s : Shape.t,
    let s' := fold_left (fun s e => dragged t (getPointerPosition e) s) es s in
    Shape.id s' = Shape.id s /\ Shape.tool s' = Shape.tool s /\
    Shape.color s' = Shape.color s /\
    Shape.strokeWidth s' = Shape.strokeWidth s.
Proof.
  induction es as [|e es IH]; intros s; simpl; [done|].
  destruct (IH (dragged t (getPointerPosition e) s)) as (-> & -> & -> & ->).
  apply dragged_id.
Qed.

Lemma lastPosition_snoc (e0 e : MouseEvent) (es : list MouseEvent) :
  lastPosition e0 (es ++ [e]) = getPointerPosition e.
Proof. unfold lastPosition. by rewrite last_snoc. Qed.

(** X1.  A drag with the arrow tool appends one arrow whose [points] are
    the press position followed by the position of the last event of the
    drag: always four numbers, however many pointer-moves there were, and
    nothing else of the state changes. *)
Theorem X1_arrow_drag (st : EditorState) (e0 : MouseEvent) (now : Z)
    (es : list MouseEvent) :
  tool st = arrow ->
  run (drag e0 now es) st =
    setIsDrawing false
      (setShapes
         (shapes st ++
          [Shape.mk (shapeId now) arrow
             (Some [Some (Pos.x (getPointerPosition e0));
                    Some (Pos.y (getPointerPosition e0));
                    Some (Pos.x (lastPosition e0 es));
                    Some (Pos.y (lastPosition e0 es))])
             None None None None None None (color st) (strokeWidth st)])
         st).
Proof.
  intros Ht. rewrite drag_run by (by rewrite Ht). rewrite Ht.
  do 4 f_equal.
  induction es as [|e es IH] using rev_ind; [reflexivity|].
  rewrite fold_left_app, IH, lastPosition_snoc. reflexivity.
Qed.

Lemma X1_arrow_drag_witness :
  tool (setTool arrow threeShapes) = arrow /\
  shapes (run (drag (pointerAt 1 2) 8 [pointerAt 5 5; pointerAt 9 4])
            (setTool arrow threeShapes)) =
    shapes threeShapes ++
    [Shape.mk "shape-8" arrow (Some [Some 1; Some 2; Some 9; Some 4])
       None None None None None None "#ff0000" 3].
Proof.
  split; [reflexivity |].
  rewrite (X1_arrow_drag (setTool arrow threeShapes) (pointerAt 1 2) 8
             [pointerAt 5 5; pointerAt 9 4] eq_refl).
  reflexivity.
Defined.

(** X2.  A drag with the rectangle tool appends one rectangle anchored at
    the press position whose width and height are the position of the last
    event of the drag minus the press position: earlier pointer-moves leave
    no trace, a press without a move gives 0 by 0, and the extents are
    negative when the drag goes left or up. *)
Theorem X2_rect_drag (st : EditorState) (e0 : MouseEvent) (now : Z)
    (es : list MouseEvent) :
  tool st = rect ->
  run (drag e0 now es) st =
    setIsDrawing false
      (setShapes
         (shapes st ++
          [Shape.mk (shapeId now) rect None
             (Some (Pos.x (getPointerPosition e0)))
             (Some (Pos.y (getPointerPosition e0)))
             (Some (Pos.x (lastPosition e0 es) - Pos.x (getPointerPosition e0)))
             (Some (Pos.y (lastPosition e0 es) - Pos.y (getPointerPosition e0)))
             (Some (Exact 0)) None (color st) (strokeWidth st)])
         st).
Proof.
  intros Ht. rewrite drag_run by (by rewrite Ht). rewrite Ht.
  do 4 f_equal.
  induction es as [|e es IH] using rev_ind.
  - unfold lastPosition; simpl. by rewrite !Z.sub_diag.
  - rewrite fold_left_app, IH, lastPosition_snoc. reflexivity.
Qed.

Lemma X2_rect_drag_witness :
  tool (setTool rect threeShapes) = rect /\
  shapes (run (drag (pointerAt 50 50) 8 [pointerAt 70 90; pointerAt 30 20])
            (setTool rect threeShapes)) =
    shapes threeShapes ++
    [Shape.mk "shape-8" rect None (Some 50) (Some 50) (Some (-20))
       (Some (-30)) (Some (Exact 0)) None "#ff0000" 3].
Proof.
  split; [reflexivity |].
  rewrite (X2_rect_drag (setTool rect threeShapes) (pointerAt 50 50) 8
             [pointerAt 70 90; pointerAt 30 20] eq_refl).
  reflexivity.
Defined.

(** X3.  A drag with the circle tool appends one circle centred at the
    press position.  Its radius is the literal 0 when no pointer-move
    arrived, and otherwise the square root of dx*dx + dy*dy for the offset of
    the last pointer-move from the centre; its width and height stay 0. *)
Theorem X3_circle_drag (st : EditorState) (e0 : MouseEvent) (now : Z)
    (es : list MouseEvent) :
  tool st = circle ->
  run (drag e0 now es) st =
    setIsDrawing false
      (setShapes
         (shapes st ++
          [Shape.mk (shapeId now) circle None
             (Some (Pos.x (getPointerPosition e0)))
             (Some (Pos.y (getPointerPosition e0)))
             (Some 0) (Some 0)
             (Some
                (match es with
                 | [] => Exact 0
                 | _ :: _ =>
                     let dx := Pos.x (lastPosition e0 es)
                               - Pos.x (getPointerPosition e0) in
                     let dy := Pos.y (lastPosition e0 es)
                               - Pos.y (getPointerPosition e0) in
                     MathSqrt (dx * dx + dy * dy)
                 end))
             None (color st) (strokeWidth st)])
         st).
Proof.
  intros Ht. rewrite drag_run by (by rewrite Ht). rewrite Ht.
  do 4 f_equal.
  induction es as [|e es IH] using rev_ind; [reflexivity|].
  rewrite fold_left_app, lastPosition_snoc.
  assert (Hfold :
    exists r, fold_left (fun s e => dragged circle (getPointerPosition e) s)
                es (started circle (getPointerPosition e0) now st) =
              Shape.mk (shapeId now) circle None
                (Some (Pos.x (getPointerPosition e0)))
                (Some (Pos.y (getPointerPosition e0)))
                (Some 0) (Some 0) (Some r) None (color st) (strokeWidth st)).
  { rewrite IH. eauto. }
  destruct Hfold as [r ->]. by destruct es.
Qed.

Lemma X3_circle_drag_witness :
  tool (setTool circle threeShapes) = circle /\
  shapes (run (drag (pointerAt 10 10) 8 [pointerAt 11 11; pointerAt 13 14])
            (setTool circle threeShapes)) =
    shapes threeShapes ++
    [Shape.mk "shape-8" circle None (Some 10) (Some 10) (Some 0) (Some 0)
       (Some (MathSqrt 25)) None "#ff0000" 3].
Proof.
  split; [reflexivity |].
  rewrite (X3_circle_drag (setTool circle threeShapes) (pointerAt 10 10) 8
             [pointerAt 11 11; pointerAt 13 14] eq_refl).
  reflexivity.
Defined.

(** X4.  With any of the five drawing tools active, a whole drag appends
    exactly one shape and changes nothing else but the drawing flag, which
    it leaves off: the shapes already in the list, the selection, the tool,
    the colour, the stroke width and the text entry are as before.  The new
    shape has the id made from the clock reading of the press and the kind
    of the active tool; its colour and stroke width are the current ones,
    except for the highlighter, which gets the colour with "80" appended and
    four times the width. *)
Theorem X4_drag_appends_one (st : EditorState) (e0 : MouseEvent) (now : Z)
    (es : list MouseEvent) :
  draws (tool st) = true ->
  exists s : Shape.t,
    run (drag e0 now es) st
      = setIsDrawing false (setShapes (shapes st ++ [s]) st) /\
    Shape.id s = shapeId now /\
    Shape.tool s = tool st /\
    Shape.color s =
      (if decide (tool st = highlighter)
       then String.append (color st) "80" else color st) /\
    Shape.strokeWidth s =
      (if decide (tool st = highlighter)
       then strokeWidth st * 4 else strokeWidth st).
Proof.
  intros Ht. eexists. split; [by apply drag_run |].
  destruct (fold_dragged_id (tool st) es
              (started (tool st) (getPointerPosition e0) now st))
    as (-> & -> & -> & ->).
  unfold started. by destruct (tool st).
Qed.

Lemma X4_drag_appends_one_witness :
  draws (tool (setTool highlighter threeShapes)) = true /\
  exists s : Shape.t,
    shapes (run (drag (pointerAt 1 2) 8 [pointerAt 5 5])
              (setTool highlighter threeShapes))
      = shapes threeShapes ++ [s] /\
    Shape.id s = "shape-8"%string /\
    Shape.color s = "#ff000080"%string /\
    Shape.strokeWidth s = 12.
Proof.
  split; [reflexivity |].
  destruct (X4_drag_appends_one (setTool highlighter threeShapes)
              (pointerAt 1 2) 8 [pointerAt 5 5] eq_refl)
    as (s & Hrun & Hid & _ & Hc & Hw).
  exists s. rewrite Hrun. auto.
Defined.

(** X5.  Undo takes back a whole drag: after a drag with a drawing tool,
    one [undo] gives the state before the drag with the selection cleared
    and the drawing flag off. *)
Theorem X5_undo_reverts_drag (st : EditorState) (e0 : MouseEvent) (now : Z)
    (es : list MouseEvent) :
  draws (tool st) = true ->
  run (drag e0 now es ++ [UndoButton]) st
    = setSelectedId None (setIsDrawing false st).
Proof.
  intros Ht. unfold run. rewrite fold_left_app. fold (run (drag e0 now es) st).
  rewrite (drag_run _ _ _ _ Ht). simpl. unfold undo. simpl.
  rewrite slice_0_m1_snoc. reflexivity.
Qed.

Lemma X5_undo_reverts_drag_witness :
  draws (tool (setTool pen threeShapes)) = true /\
  shapes (run (drag (pointerAt 1 2) 8 [pointerAt 5 5; pointerAt 6 7]
               ++ [UndoButton]) (setTool pen threeShapes))
    = shapes threeShapes.
Proof.
  split; [reflexivity |].
  rewrite (X5_undo_reverts_drag (setTool pen threeShapes) (pointerAt 1 2) 8
             [pointerAt 5 5; pointerAt 6 7] eq_refl).
  reflexivity.
Defined.

(** ** Text entry from the canvas *)

(** X6.  With the text tool active, a pointer-down opens the entry at the
    pointer without starting a drag or touching the list; typing [txt] and
    confirming then appends one text shape at that position holding [txt],
    with the current colour and stroke width, closes the entry and empties
    the input.  When [txt] is empty the confirmation changes nothing and
    the entry stays open. *)
Theorem X6_text_entry (st : EditorState) (e : MouseEvent) (now0 now : Z)
    (txt : string) :
  tool st = text ->
  run [MouseDown e now0; TextChange txt; TextConfirm now] st =
    if decide (txt = ""%string)
    then setTextInput "" (setTextPosition (Some (getPointerPosition e)) st)
    else
      setTextPosition None
        (setTextInput ""
           (setShapes
              (shapes st ++
               [Shape.mk (shapeId now) text None
                  (Some (Pos.x (getPointerPosition e)))
                  (Some (Pos.y (getPointerPosition e)))
                  None None None (Some txt) (color st) (strokeWidth st)])
              st)).
Proof.
  intros Ht. unfold run; simpl. unfold handleMouseDown. rewrite Ht.
  unfold addText; simpl.
  destruct (decide (txt = ""%string)) as [-> | Hne]; [reflexivity |].
  by destruct txt.
Qed.

Lemma X6_text_entry_witness :
  tool (setTool text threeShapes) = text /\
  shapes (run [MouseDown (pointerAt 4 6) 1; TextChange "hi"; TextConfirm 9]
            (setTool text threeShapes)) =
    shapes threeShapes ++
    [Shape.mk "shape-9" text None (Some 4) (Some 6) None None None
       (Some "hi"%string) "#ff0000" 3].
Proof.
  split; [reflexivity |].
  rewrite (X6_text_entry (setTool text threeShapes) (pointerAt 4 6) 1 9 "hi"
             eq_refl).
  reflexivity.
Defined.

(** X7.  Cancel closes the text entry but keeps what was typed: after
    typing [txt] and cancelling, a new pointer-down with the text tool
    followed at once by a confirmation appends a text shape holding the old
    [txt] at the new position. *)
Theorem X7_cancel_keeps_typed_text (st : EditorState) (e1 e2 : MouseEvent)
    (n1 n2 now : Z) (txt : string) :
  tool st = text -> txt <> ""%string ->
  run [MouseDown e1 n1; TextChange txt; TextCancel] st
    = setTextPosition None (setTextInput txt st) /\
  run [MouseDown e1 n1; TextChange txt; TextCancel;
       MouseDown e2 n2; TextConfirm now] st =
    setTextPosition None
      (setTextInput ""
         (setShapes
            (shapes st ++
             [Shape.mk (shapeId now) text None
                (Some (Pos.x (getPointerPosition e2)))
                (Some (Pos.y (getPointerPosition e2)))
                None None None (Some txt) (color st) (strokeWidth st)])
            st)).
Proof.
  intros Ht Hne. unfold run; simpl.
  assert (Hdown : forall e n, handleMouseDown e n st
                    = setTextPosition (Some (getPointerPosition e)) st).
  { intros e n. unfold handleMouseDown. by rewrite Ht. }
  rewrite Hdown. split; [reflexivity |].
  unfold cancelText, handleMouseDown, addText; simpl. rewrite Ht.
  destruct txt; [done | reflexivity].
Qed.

Lemma X7_cancel_keeps_typed_text_witness :
  tool (setTool text initialState) = text /\ "old"%string <> ""%string /\
  textInput (run [MouseDown (pointerAt 1 1) 1; TextChange "old"; TextCancel]
               (setTool text initialState)) = "old"%string /\
  Shape.text <$>
    shapes (run [MouseDown (pointerAt 1 1) 1; TextChange "old"; TextCancel;
                 MouseDown (pointerAt 7 7) 2; TextConfirm 3]
              (setTool text initialState))
    = [Some "old"%string].
Proof.
  split; [reflexivity |]. split; [discriminate |].
  destruct (X7_cancel_keeps_typed_text (setTool text initialState)
              (pointerAt 1 1) (pointerAt 7 7) 1 2 3 "old" eq_refl)
    as [-> ->]; [discriminate |].
  split; reflexivity.
Defined.

(** ** Shape ids *)

Lemma to_int_not_nil (z : Z) :
  Z.to_int z <> Decimal.Pos Decimal.Nil /\
  Z.to_int z <> Decimal.Neg Decimal.Nil.
Proof.
  destruct z as [|p|p]; simpl; split; try discriminate;
    intros [= H]; by apply (DecimalPos.Unsigned.to_uint_nonnil p).
Qed.

Lemma append_cancel_l (p a b : string) :
  String.append p a = String.append p b -> a = b.
Proof. induction p as [|c p IH]; simpl; [done |]. intros [= H]. auto. Qed.

Lemma shapeId_inj (n m : Z) : shapeId n = shapeId m -> n = m.
Proof.
  unfold shapeId. intros H%append_cancel_l.
  apply DecimalZ.to_int_inj.
  destruct (to_int_not_nil n) as [Hn1 Hn2].
  destruct (to_int_not_nil m) as [Hm1 Hm2].
  pose proof (NilZero.isi _ Hn1 Hn2) as En.
  pose proof (NilZero.isi _ Hm1 Hm2) as Em.
  rewrite H in En. congruence.
Qed.

#[global] Instance shapeId_Inj : Inj (=) (=) shapeId.
Proof. intros n m. apply shapeId_inj. Qed.

Lemma handleMouseMove_ids (e : MouseEvent) (st : EditorState) :
  ids (handleMouseMove e st) = ids st.
Proof.
  unfold handleMouseMove, ids.
  destruct (isDrawing st); simpl; [| done].
  destruct (last (shapes st)) as [ls|] eqn:Hl; [| done].
  apply last_Some in Hl as [l' Hl].
  destruct (tool st); simpl; try done;
    rewrite Hl, slice_0_m1_snoc, !fmap_app; reflexivity.
Qed.

Lemma step_ids (ev : Event) (st : EditorState) :
  ids (step ev st) `sublist_of` ids st ++ (shapeId <$> clock [ev]).
Proof.
  destruct ev; simpl; try (rewrite app_nil_r; reflexivity).
  - unfold handleMouseDown, ids.
    destruct (tool st); simpl;
      try (rewrite fmap_app; reflexivity);
      try (apply sublist_inserts_r; reflexivity).
    destruct (clickedOnEmpty e); apply sublist_inserts_r; reflexivity.
  - rewrite app_nil_r, handleMouseMove_ids. reflexivity.
  - unfold addText, ids.
    destruct (textPosition st); [| apply sublist_inserts_r; reflexivity].
    destruct (truthy (textInput st)); simpl;
      [rewrite fmap_app; reflexivity | apply sublist_inserts_r; reflexivity].
  - rewrite app_nil_r. unfold undo, ids, slice_0_m1. simpl.
    apply fmap_sublist, sublist_take.
  - rewrite app_nil_r. apply sublist_nil_l.
  - rewrite app_nil_r. unfold deleteSelected, ids.
    destruct (selectedId st) as [sel|]; [| reflexivity].
    destruct (truthy sel); [| reflexivity]. simpl.
    apply fmap_sublist, sublist_filter.
  - rewrite app_nil_r. unfold shapeOnClick. by case_decide.
  - rewrite app_nil_r. apply sublist_nil_l.
Qed.

Lemma clock_cons (ev : Event) (evs : list Event) :
  clock (ev :: evs) = clock [ev] ++ clock evs.
Proof. by destruct ev. Qed.

Lemma run_ids (evs : list Event) :
  forall st : EditorState,
    ids (run evs st) `sublist_of` ids st ++ (shapeId <$> clock evs).
Proof.
  induction evs as [|ev evs IH]; intros st.
  - simpl. rewrite app_nil_r. reflexivity.
  - change (run (ev :: evs) st) with (run evs (step ev st)).
    rewrite clock_cons, fmap_app, app_assoc.
    etrans; [apply IH |]. apply sublist_app; [apply step_ids | reflexivity].
Qed.

(** X8.  In every state reached from the first render, the ids of the
    Shape List are, in list order, a subsequence of the ids made from the
    clock readings of the pointer-downs and text confirmations so far; so
    when those readings are pairwise distinct, no two shapes share an
    id. *)
Theorem X8_ids_unique (evs : list Event) :
  NoDup (clock evs) ->
  ids (run evs initialState) `sublist_of` (shapeId <$> clock evs) /\
  NoDup (Shape.id <$> shapes (run evs initialState)).
Proof.
  intros Hnd.
  assert (Hsub : ids (run evs initialState)
                   `sublist_of` (shapeId <$> clock evs))
    by exact (run_ids evs initialState).
  split; [exact Hsub |].
  eapply sublist_NoDup; [| exact Hsub].
  apply (NoDup_fmap_2 shapeId). exact Hnd.
Qed.

Lemma X8_ids_unique_witness :
  let evs := drag (pointerAt 1 1) 100 [pointerAt 2 2]
             ++ [ToolButton text; MouseDown (pointerAt 5 5) 101;
                 TextChange "a"; TextConfirm 102] in
  NoDup (clock evs) /\
  Shape.id <$> shapes (run evs initialState)
    = ["shape-100"%string; "shape-102"%string] /\
  NoDup (Shape.id <$> shapes (run evs initialState)).
Proof.
  intros evs.
  assert (Hnd : NoDup (clock evs)).
  { apply (bool_decide_unpack _). reflexivity. }
  split; [exact Hnd |]. split; [reflexivity |].
  apply (X8_ids_unique evs Hnd).
Defined.

(** X9.  In a state reached with pairwise distinct clock readings, deleting
    the selected shape, found at index [i] of the list, removes that one
    element and nothing else: the other shapes stay, in their order, and
    the selection is cleared. *)
Theorem X9_delete_removes_one (evs : list Event) (i : nat) (s : Shape.t) :
  let st := run evs initialState in
  NoDup (clock evs) ->
  shapes st !! i = Some s ->
  selectedId st = Some (Shape.id s) ->
  shapes (deleteSelected st) = delete i (shapes st) /\
  length (shapes (deleteSelected st)) = (length (shapes st) - 1)%nat /\
  selectedId (deleteSelected st) = None.
Proof.
  intros st Hnd Hi Hsel.
  assert (Hsub : ids st `sublist_of` (shapeId <$> clock evs))
    by exact (run_ids evs initialState).
  assert (Hids : NoDup (Shape.id <$> shapes st)).
  { eapply sublist_NoDup; [| exact Hsub].
    apply (NoDup_fmap_2 shapeId). exact Hnd. }
  assert (Htr : truthy (Shape.id s) = true).
  { assert (Hin : Shape.id s ∈ ids st).
    { apply list_elem_of_fmap_2. by eapply list_elem_of_lookup_2. }
    eapply elem_of_sublist in Hin; [| exact Hsub].
    apply list_elem_of_fmap in Hin as (n & -> & _).
    apply shapeId_truthy. }
  unfold deleteSelected. rewrite Hsel, Htr. simpl.
  rewrite (filter_id_delete _ i s Hids Hi).
  repeat split. rewrite length_delete; [done |]. by rewrite Hi.
Qed.

Lemma X9_delete_removes_one_witness :
  let evs := drag (pointerAt 1 1) 100 [pointerAt 2 2]
             ++ drag (pointerAt 3 3) 200 []
             ++ [ToolButton select; ShapeClick "shape-100"] in
  let s := Shape.mk "shape-100" pen (Some [Some 1; Some 1; Some 2; Some 2])
             None None None None None None "#ff0000" 3 in
  NoDup (clock evs) /\
  shapes (run evs initialState) !! 0%nat = Some s /\
  selectedId (run evs initialState) = Some (Shape.id s) /\
  Shape.id <$> shapes (deleteSelected (run evs initialState))
    = ["shape-200"%string].
Proof.
  intros evs s.
  assert (Hnd : NoDup (clock evs)).
  { apply (bool_decide_unpack _). reflexivity. }
  split; [exact Hnd |]. split; [reflexivity |]. split; [reflexivity |].
  destruct (X9_delete_removes_one evs 0%nat s Hnd eq_refl eq_refl)
    as (-> & _ & _).
  reflexivity.
Defined.

(** ** What the list can hold *)

(** Where a shape of the list after one event comes from: it was there
    before, or it is the last shape as rewritten by a pointer-move, or it is
    the shape a pointer-down or a text confirmation has just built. *)
Lemma step_shape_origin (ev : Event) (st : EditorState) (s' : Shape.t) :
  s' ∈ shapes (step ev st) ->
  s' ∈ shapes st \/
  (exists e s, ev = MouseMove e /\ s ∈ shapes st /\
               s' = dragged (tool st) (getPointerPosition e) s) \/
  (exists e now, ev = MouseDown e now /\ draws (tool st) = true /\
                 s' = started (tool st) (getPointerPosition e) now st) \/
  (exists now pos, ev = TextConfirm now /\ textPosition st = Some pos /\
                   s' = Shape.mk (shapeId now) text None
                          (Some (Pos.x pos)) (Some (Pos.y pos)) None None None
                          (Some (textInput st)) (color st) (strokeWidth st)).
Proof.
  destruct ev; simpl; auto.
  - intros Hin. destruct (draws (tool st)) eqn:Hd.
    + rewrite (handleMouseDown_started _ _ _ Hd) in Hin. simpl in Hin.
      apply elem_of_app in Hin as [Hin | Hin%list_elem_of_singleton];
        [by left | right; right; left; eauto].
    + left. unfold handleMouseDown in Hin.
      destruct (tool st); try discriminate; simpl in Hin; try done.
      by destruct (clickedOnEmpty e).
  - intros Hin. destruct (isDrawing st) eqn:Hd;
      [| left; unfold handleMouseMove in Hin; by rewrite Hd in Hin].
    destruct (last (shapes st)) as [ls|] eqn:Hl;
      [| left; unfold handleMouseMove in Hin; by rewrite Hd, Hl in Hin].
    apply last_Some in Hl as [l' Hl].
    rewrite (handleMouseMove_dragged e st l' ls Hd Hl) in Hin. simpl in Hin.
    apply elem_of_app in Hin as [Hin | Hin%list_elem_of_singleton].
    + left. rewrite Hl. apply elem_of_app. by left.
    + right; left. exists e, ls. repeat split; [| done].
      rewrite Hl. apply elem_of_app. right. by apply list_elem_of_singleton.
  - intros Hin. unfold addText in Hin.
    destruct (textPosition st) as [pos|] eqn:Hp; [| by left].
    destruct (truthy (textInput st)); simpl in Hin; [| by left].
    apply elem_of_app in Hin as [Hin | Hin%list_elem_of_singleton];
      [by left | right; right; right; eauto].
  - intros Hin. left. unfold undo, slice_0_m1 in Hin. simpl in Hin.
    eapply elem_of_sublist; [exact Hin | apply sublist_take].
  - intros Hin. simpl in Hin. by apply elem_of_nil in Hin.
  - intros Hin. left. unfold deleteSelected in Hin.
    destruct (selectedId st) as [sel|]; [| done].
    destruct (truthy sel); [| done]. simpl in Hin.
    by apply list_elem_of_filter in Hin as [_ Hin].
  - intros Hin. left. unfold shapeOnClick in Hin. by case_decide.
  - intros Hin. simpl in Hin. by apply elem_of_nil in Hin.
Qed.

(** The tool, colour and stroke width change with their own control only. *)
Lemma step_settings (ev : Event) (st : EditorState) :
  tool (step ev st) = match ev with ToolButton t => t | _ => tool st end /\
  color (step ev st) = match ev with ColorButton c => c | _ => color st end /\
  strokeWidth (step ev st)
    = match ev with SizeSlider w => w | _ => strokeWidth st end.
Proof.
  destruct ev; simpl; try done.
  - unfold handleMouseDown.
    destruct (tool st) eqn:Ht; simpl; rewrite ?Ht; try done.
    destruct (clickedOnEmpty e); simpl; by rewrite ?Ht.
  - unfold handleMouseMove. destruct (isDrawing st); simpl; [| done].
    destruct (last (shapes st)); [| done].
    destruct (tool st) eqn:Ht; simpl; by rewrite ?Ht.
  - unfold addText. destruct (textPosition st); [| done].
    by destruct (truthy (textInput st)).
  - unfold deleteSelected. destruct (selectedId st) as [sel|]; [| done].
    by destruct (truthy sel).
  - unfold shapeOnClick. by case_decide.
Qed.

(** The selection after one event is none, or what it was, or the id of the
    shape that was clicked. *)
Lemma step_selection (ev : Event) (st : EditorState) :
  selectedId (step ev st) = None \/
  selectedId (step ev st) = selectedId st \/
  (exists id, ev = ShapeClick id /\ selectedId (step ev st) = Some id).
Proof.
  destruct ev; simpl; auto.
  - unfold handleMouseDown.
    destruct (tool st); simpl; auto. destruct (clickedOnEmpty e); auto.
  - unfold handleMouseMove. destruct (isDrawing st); simpl; auto.
    destruct (last (shapes st)); auto. destruct (tool st); auto.
  - unfold addText. destruct (textPosition st); auto.
    destruct (truthy (textInput st)); auto.
  - unfold deleteSelected. destruct (selectedId st) as [sel|] eqn:Hs; auto.
    destruct (truthy sel); auto.
  - unfold shapeOnClick. case_decide; eauto.
Qed.

(** *** Every shape is drawn *)

Lemma step_has_element (ev : Event) (st : EditorState) :
  Forall has_element (shapes st) -> Forall has_element (shapes (step ev st)).
Proof.
  rewrite !Forall_forall. intros Hall s' Hin.
  apply step_shape_origin in Hin
    as [Hin | [(e & s & -> & Hin & ->) | [(e & now & -> & Hd & ->)
                                         | (now & pos & -> & _ & ->)]]].
  - by apply Hall.
  - destruct (dragged_id (tool st) (getPointerPosition e) s) as (_ & Ht & _).
    unfold has_element. rewrite Ht. by apply Hall.
  - unfold has_element, started. by destruct (tool st).
  - by split.
Qed.

Lemma run_has_element (evs : list Event) :
  forall st : EditorState,
    Forall has_element (shapes st) -> Forall has_element (shapes (run evs st)).
Proof.
  induction evs as [|ev evs IH]; intros st Hst; [done |].
  apply IH. by apply step_has_element.
Qed.

Lemma renderShape_element (active : Tool) (s : Shape.t) :
  has_element s ->
  exists n, renderShape active s = Some n /\ node_id n = Shape.id s.
Proof.
  intros [Hs Hc]. unfold renderShape.
  destruct (Shape.tool s); try done; eauto.
Qed.

Lemma renderShapes_ids (active : Tool) (l : list Shape.t) :
  Forall has_element l ->
  node_id <$> omap (renderShape active) l = Shape.id <$> l.
Proof.
  induction 1 as [|s l Hs Hl IH]; [done |].
  destruct (renderShape_element active s Hs) as (n & Hn & Hid).
  change (omap (renderShape active) (s :: l))
    with (match renderShape active s with
          | Some n => n :: omap (renderShape active) l
          | None => omap (renderShape active) l
          end).
  rewrite Hn, !fmap_cons, IH, Hid. reflexivity.
Qed.

(** X10.  Whatever the events since the first render, the layer draws every
    shape of the list: no shape is mapped to [null], and the elements come
    in list order, each carrying the id of its shape (the id the transformer
    looks up). *)
Theorem X10_every_shape_is_drawn (evs : list Event) :
  node_id <$> renderShapes (run evs initialState)
    = Shape.id <$> shapes (run evs initialState) /\
  length (renderShapes (run evs initialState))
    = length (shapes (run evs initialState)).
Proof.
  assert (Hids : node_id <$> renderShapes (run evs initialState)
                 = Shape.id <$> shapes (run evs initialState)).
  { apply renderShapes_ids, run_has_element. constructor. }
  split; [exact Hids |].
  apply (f_equal length) in Hids. by rewrite !length_fmap in Hids.
Qed.

(** *** States the page can reach *)

Lemma page_state_initial : page_state initialState.
Proof.
  repeat split; try done.
  - apply (bool_decide_unpack _). reflexivity.
  - apply (bool_decide_unpack _). reflexivity.
Qed.

Lemma step_page_state (ev : Event) (st : EditorState) :
  page_state st -> offered st ev = true -> page_state (step ev st).
Proof.
  intros (Ht & Hc & Hw & Hs & Hsel) Hoff.
  destruct (step_settings ev st) as (Et & Ec & Ew).
  split; [| split; [| split; [| split]]].
  - rewrite Et. destruct ev; try done. by apply bool_decide_eq_true in Hoff.
  - rewrite Ec. destruct ev; try done. by apply bool_decide_eq_true in Hoff.
  - rewrite Ew. destruct ev; try done. simpl in Hoff.
    apply andb_true_iff in Hoff as [H1 H2]. lia.
  - rewrite Forall_forall in *. intros s' Hin.
    apply step_shape_origin in Hin
      as [Hin | [(e & s & -> & Hin & ->) | [(e & now & -> & Hd & ->)
                                           | (now & pos & -> & _ & ->)]]].
    + by apply Hs.
    + destruct (dragged_id (tool st) (getPointerPosition e) s)
        as (Ei & Ek & Eco & Esw).
      unfold palette_shape. rewrite Ei, Ek, Eco, Esw. by apply Hs.
    + split; [by destruct (tool st) |].
      destruct (tool st); try discriminate; simpl; try done.
      exists (color st), (strokeWidth st). done.
    + by split.
  - intros i Hi.
    destruct (step_selection ev st) as [Hn | [Hsame | (id & -> & Hid)]].
    + congruence.
    + apply Hsel. congruence.
    + simpl in Hoff. apply andb_true_iff in Hoff as [_ Hin].
      apply bool_decide_eq_true in Hin.
      apply list_elem_of_fmap in Hin as (s & -> & Hin).
      rewrite Forall_forall in Hs. rewrite Hid in Hi. injection Hi as <-.
      by apply Hs.
Qed.

Lemma run_page_state (evs : list Event) :
  forall st : EditorState,
    page_state st -> offered_trace evs st = true -> page_state (run evs st).
Proof.
  induction evs as [|ev evs IH]; intros st Hst Hoff; [done |].
  simpl in Hoff. apply andb_true_iff in Hoff as [Hev Hoff].
  apply IH; [by apply step_page_state | done].
Qed.

(** X11.  In every state the page can reach from the first render, the
    active tool is one of the seven toolbar tools and so never crop, the
    colour is one of the eight palette colours, the stroke width lies
    between 1 and 20, and the selection is none or a non-empty id. *)
Theorem X11_page_settings (evs : list Event) :
  let st := run evs initialState in
  offered_trace evs initialState = true ->
  tool st ∈ tool_id <$> tools /\ tool st <> crop /\
  color st ∈ colors /\
  1 <= strokeWidth st <= 20 /\
  (forall i, selectedId st = Some i -> i <> ""%string).
Proof.
  intros st Hoff.
  destruct (run_page_state evs initialState page_state_initial Hoff)
    as (Ht & Hc & Hw & _ & Hsel).
  fold st in Ht, Hc, Hw, Hsel.
  split; [done |]. split.
  - intros Hcrop. rewrite Hcrop in Ht. revert Ht.
    apply (bool_decide_unpack (crop ∉ tool_id <$> tools)). reflexivity.
  - repeat split; try done; try lia.
    intros i Hi. apply truthy_nonempty. by apply Hsel.
Qed.

Lemma X11_page_settings_witness :
  let evs := [ImageLoaded "data:image/png;base64,AAAA";
              ToolButton rect; SizeSlider 20; ColorButton "#0066ff";
              MouseDown (pointerAt 1 1) 5; MouseUp;
              ToolButton select; ShapeClick "shape-5"] in
  offered_trace evs initialState = true /\
  tool (run evs initialState) <> crop /\
  1 <= strokeWidth (run evs initialState) <= 20 /\
  selectedId (run evs initialState) = Some "shape-5"%string.
Proof.
  intros evs.
  assert (Hoff : offered_trace evs initialState = true) by reflexivity.
  split; [exact Hoff |].
  destruct (X11_page_settings evs Hoff) as (_ & Hcrop & _ & Hw & _).
  split; [exact Hcrop |]. split; [exact Hw | reflexivity].
Defined.

(** X12.  In every state the page can reach from the first render, each
    shape of the list has a stroke width between 1 and 80 and a palette
    colour: a highlighter stroke carries a palette colour with "80"
    appended (nine characters) and four times a slider width, every other
    shape a palette colour as it is and a width between 1 and 20. *)
Theorem X12_page_shapes (evs : list Event) (s : Shape.t) :
  offered_trace evs initialState = true ->
  s ∈ shapes (run evs initialState) ->
  palette_shape s /\
  1 <= Shape.strokeWidth s <= 80 /\
  (Shape.tool s = highlighter -> String.length (Shape.color s) = 9%nat) /\
  (Shape.tool s <> highlighter -> String.length (Shape.color s) = 7%nat).
Proof.
  intros Hoff Hin.
  destruct (run_page_state evs initialState page_state_initial Hoff)
    as (_ & _ & _ & Hs & _).
  rewrite Forall_forall in Hs. specialize (Hs s Hin).
  split; [exact Hs |].
  assert (Hlen : forall c, c ∈ colors -> String.length c = 7%nat).
  { intros c Hc. unfold colors in Hc.
    repeat (apply elem_of_cons in Hc as [-> | Hc]; [reflexivity |]).
    by apply elem_of_nil in Hc. }
  assert (Happ : forall a b, String.length (String.append a b)
                             = (String.length a + String.length b)%nat).
  { intros a b. induction a as [|ch a IH]; simpl; [done | by rewrite IH]. }
  destruct Hs as [_ Hs]. case_decide as Hk.
  - destruct Hs as (c & w & Hc & Hw & Ecol & Esw).
    split; [lia |]. split; [| done].
    intros _. rewrite Ecol, Happ, (Hlen c Hc). reflexivity.
  - destruct Hs as [Hc Hw]. split; [lia |]. split; [done |].
    intros _. by apply Hlen.
Qed.

Lemma X12_page_shapes_witness :
  let evs := [ImageLoaded "data:image/png;base64,AAAA";
              ToolButton highlighter; SizeSlider 20; ColorButton "#0066ff";
              MouseDown (pointerAt 1 1) 5; MouseMove (pointerAt 2 2);
              MouseUp] in
  let s := Shape.mk "shape-5" highlighter
             (Some [Some 1; Some 1; Some 2; Some 2])
             None None None None None None "#0066ff80" 80 in
  offered_trace evs initialState = true /\
  s ∈ shapes (run evs initialState) /\
  1 <= Shape.strokeWidth s <= 80 /\
  (Shape.tool s = highlighter -> String.length (Shape.color s) = 9%nat).
Proof.
  intros evs s.
  assert (Hoff : offered_trace evs initialState = true) by reflexivity.
  assert (Hin : s ∈ shapes (run evs initialState))
    by apply list_elem_of_here.
  split; [exact Hoff |]. split; [exact Hin |].
  destruct (X12_page_shapes evs s Hoff Hin) as (_ & Hw & Hh & _).
  split; [exact Hw | exact Hh].
Defined.

(** *** The selection names a shape of the list *)

Lemma step_selection_in_list (ev : Event) (st : EditorState) :
  selection_in_list st -> offered st ev = true ->
  is_screenshot_taken ev = false ->
  selection_in_list (step ev st).
Proof.
  intros Hsel Hoff Hns. unfold selection_in_list in *.
  destruct ev; simpl in *; try done.
  - unfold handleMouseDown. destruct (tool st); simpl; unfold ids; simpl;
      try (intros i Hi; rewrite fmap_app; apply elem_of_app; left;
           by apply Hsel);
      try done.
    destruct (clickedOnEmpty e); [done | apply Hsel].
  - intros i Hi. rewrite handleMouseMove_ids. apply Hsel.
    unfold handleMouseMove in Hi. destruct (isDrawing st); simpl in Hi; [| done].
    destruct (last (shapes st)); [| done]. by destruct (tool st).
  - unfold addText. destruct (textPosition st); [| done].
    destruct (truthy (textInput st)); [| done]. unfold ids; simpl.
    intros i Hi. rewrite fmap_app. apply elem_of_app. left. by apply Hsel.
  - unfold deleteSelected. destruct (selectedId st) as [sel|] eqn:Hs.
    + destruct (truthy sel);
        [intros i Hi; simpl in Hi; discriminate
        | intros i Hi; apply Hsel; congruence].
    + intros i Hi. congruence.
  - unfold shapeOnClick.
    destruct (decide (tool st = select)); [| exact Hsel]. simpl.
    intros i [= <-]. apply andb_true_iff in Hoff as [_ Hin].
    by apply bool_decide_eq_true in Hin.
Qed.

(** X13.  As long as no "screenshot-taken" notification arrives, the
    selection always names a shape that is in the list: in every state the
    page reaches from the first render without that notification, the
    selected id, if any, is the id of a shape of the Shape List. *)
Theorem X13_selection_in_list (evs : list Event) (i : string) :
  offered_trace evs initialState = true ->
  forallb (fun ev => negb (is_screenshot_taken ev)) evs = true ->
  selectedId (run evs initialState) = Some i ->
  i ∈ Shape.id <$> shapes (run evs initialState).
Proof.
  intros Hoff Hns.
  assert (Hgen : forall st, selection_in_list st ->
            offered_trace evs st = true -> selection_in_list (run evs st)).
  { clear Hoff. induction evs as [|ev evs IH]; intros st Hst Ho; [done |].
    simpl in Hns, Ho. apply andb_true_iff in Hns as [Hn Hns].
    apply andb_true_iff in Ho as [Hev Ho]. apply negb_true_iff in Hn.
    apply (IH Hns); [by apply step_selection_in_list | done]. }
  apply (Hgen initialState); [done | exact Hoff].
Qed.

Lemma X13_selection_in_list_witness :
  let evs := [ImageLoaded "data:image/png;base64,AAAA";
              MouseDown (pointerAt 1 1) 5; MouseMove (pointerAt 2 2); MouseUp;
              ToolButton select; ShapeClick "shape-5";
              ToolButton pen; MouseDown (pointerAt 3 3) 6; MouseUp] in
  offered_trace evs initialState = true /\
  forallb (fun ev => negb (is_screenshot_taken ev)) evs = true /\
  selectedId (run evs initialState) = Some "shape-5"%string /\
  "shape-5"%string ∈ Shape.id <$> shapes (run evs initialState).
Proof.
  intros evs. split; [reflexivity |]. split; [reflexivity |].
  split; [reflexivity |].
  apply (X13_selection_in_list evs "shape-5"); reflexivity.
Defined.

(** ** Selecting by click *)

(** X14.  With the selection tool active, clicking a shape selects it and
    clicking another one afterwards leaves only the second selected; the
    pointer-downs that come with the clicks land on the shapes, not on the
    empty stage or the image, and change nothing, and the list is not
    touched.  With any other tool active the click handler of a shape does
    nothing. *)
Theorem X14_click_selects (st : EditorState) (ea eb : MouseEvent)
    (na nb : Z) (a b : string) :
  (tool st = select ->
   clickedOnEmpty ea = false -> clickedOnEmpty eb = false ->
   run [MouseDown ea na; MouseUp; ShapeClick a;
        MouseDown eb nb; MouseUp; ShapeClick b] st
     = setSelectedId (Some b) (setIsDrawing false st)) /\
  (tool st <> select -> shapeOnClick a st = st).
Proof.
  split.
  - intros Ht Ha Hb. destruct st as [sc t c w sh d sel ti tp].
    simpl in Ht. subst t. unfold run; simpl.
    unfold handleMouseDown; simpl. rewrite Ha. simpl. rewrite Hb.
    reflexivity.
  - intros Ht. unfold shapeOnClick. by case_decide.
Qed.

Lemma X14_click_selects_witness :
  let ea := mkEvent false "Line" (Pos.mk 1 1) in
  let eb := mkEvent false "Rect" (Pos.mk 10 10) in
  tool threeShapes = select /\
  clickedOnEmpty ea = false /\ clickedOnEmpty eb = false /\
  selectedId (run [MouseDown ea 1; MouseUp; ShapeClick "shape-1";
                   MouseDown eb 2; MouseUp; ShapeClick "shape-3"]
                threeShapes) = Some "shape-3"%string /\
  (tool (setTool pen threeShapes) <> select /\
   shapeOnClick "shape-1" (setTool pen threeShapes) = setTool pen threeShapes).
Proof.
  intros ea eb.
  split; [reflexivity |]. split; [reflexivity |]. split; [reflexivity |].
  split.
  - exact (f_equal selectedId
             (proj1 (X14_click_selects threeShapes ea eb 1 2
                       "shape-1" "shape-3") eq_refl eq_refl eq_refl)).
  - split; [discriminate |].
    apply (proj2 (X14_click_selects (setTool pen threeShapes) ea eb 1 2
                    "shape-1" "shape-3")).
    discriminate.
Defined.

(** ** Deleting twice *)

(** X15.  [deleteSelected] leaves no shape carrying the id that was
    selected, never lengthens the list, and a second call right after does
    nothing. *)
Theorem X15_delete_again (st : EditorState) :
  deleteSelected (deleteSelected st) = deleteSelected st /\
  (length (shapes (deleteSelected st)) <= length (shapes st))%nat /\
  (forall sel, selectedId st = Some sel -> sel <> ""%string ->
     sel ∉ Shape.id <$> shapes (deleteSelected st)).
Proof.
  unfold deleteSelected.
  destruct (selectedId st) as [sel|] eqn:Hs.
  - destruct (truthy sel) eqn:Ht; simpl.
    + split; [reflexivity |]. split; [apply length_filter |].
      intros sel' [= <-] _ Hin.
      apply list_elem_of_fmap in Hin as (s & Hid & Hin).
      apply list_elem_of_filter in Hin as [Hne _]. by apply Hne.
    + rewrite Hs, Ht. split; [reflexivity |]. split; [lia |].
      intros sel' [= <-] Hne. apply truthy_nonempty in Hne. congruence.
  - rewrite Hs. split; [reflexivity |]. split; [lia |]. intros sel' [=].
Qed.

Lemma X15_delete_again_witness :
  selectedId threeShapes = Some "shape-2"%string /\
  "shape-2"%string <> ""%string /\
  "shape-2"%string ∉ Shape.id <$> shapes (deleteSelected threeShapes).
Proof.
  split; [reflexivity |]. split; [discriminate |].
  apply (proj2 (proj2 (X15_delete_again threeShapes)) "shape-2"%string);
    [reflexivity | discriminate].
Defined.

(** ** When the automatic copy is armed *)

(** X16.  The automatic copy is never armed in the middle of a drag with a
    drawing tool, however many pointer-moves have arrived, and is armed once
    the pointer-up has come; emptying the list by Clear or by a new
    screenshot disarms it, so the clipboard is not refreshed then. *)
Theorem X16_auto_copy (st : EditorState) (e0 : MouseEvent) (now : Z)
    (es : list MouseEvent) (payload : string) :
  draws (tool st) = true ->
  autoCopyArmed (run (MouseDown e0 now :: map MouseMove es) st) = false /\
  autoCopyArmed (run (drag e0 now es) st) = true /\
  autoCopyArmed (clearAll (run (drag e0 now es) st)) = false /\
  autoCopyArmed (screenshotTaken payload (run (drag e0 now es) st)) = false.
Proof.
  intros Ht. split; [| split; [| split; reflexivity]].
  - change (run (MouseDown e0 now :: map MouseMove es) st)
      with (run (map MouseMove es) (handleMouseDown e0 now st)).
    rewrite (handleMouseDown_started _ _ _ Ht).
    erewrite moves_dragged; [| reflexivity | reflexivity].
    unfold autoCopyArmed. simpl. apply andb_false_r.
  - rewrite (drag_run _ _ _ _ Ht). unfold autoCopyArmed. simpl.
    rewrite length_app. simpl. rewrite andb_true_r.
    apply Nat.ltb_lt. lia.
Qed.

Lemma X16_auto_copy_witness :
  draws (tool initialState) = true /\
  autoCopyArmed (run (MouseDown (pointerAt 1 1) 5
                      :: map MouseMove [pointerAt 2 2; pointerAt 3 3])
                   initialState) = false /\
  autoCopyArmed (run (drag (pointerAt 1 1) 5 [pointerAt 2 2; pointerAt 3 3])
                   initialState) = true.
Proof.
  split; [reflexivity |].
  destruct (X16_auto_copy initialState (pointerAt 1 1) 5
              [pointerAt 2 2; pointerAt 3 3] "" eq_refl) as (H1 & H2 & _).
  split; [exact H1 | exact H2].
Defined.

(** ** From the data URL to the clipboard bytes *)

Lemma afterPrefix_append (p s : string) :
  afterPrefix p (String.append p s) = Some s.
Proof.
  induction p as [|a p IH]; simpl; [by destruct s |].
  by rewrite Ascii.eqb_refl.
Qed.

Lemma afterPrefix_Some (p s r : string) :
  afterPrefix p s = Some r -> s = String.append p r.
Proof.
  revert s. induction p as [|a p IH]; intros s; simpl.
  - intros [= <-]. reflexivity.
  - destruct s as [|b s]; simpl; [done |].
    destruct (Ascii.eqb_spec a b) as [-> | Hne]; [| done].
    intros Hr. by rewrite (IH s Hr).
Qed.

(** X17.  Stripping the PNG data-URL prefix gives back exactly the payload
    the prefix was put in front of (a second copy of the prefix inside the
    payload stays), and a string that does not start with the prefix comes
    back unchanged. *)
Theorem X17_strip_prefix (s : string) :
  stripPngPrefix (String.append pngPrefix s) = s /\
  ((forall payload, s <> String.append pngPrefix payload) ->
   stripPngPrefix s = s).
Proof.
  unfold stripPngPrefix. split.
  - by rewrite afterPrefix_append.
  - intros Hno. destruct (afterPrefix pngPrefix s) as [r|] eqn:Hr; [| done].
    apply afterPrefix_Some in Hr. by destruct (Hno r).
Qed.

Lemma X17_strip_prefix_witness :
  stripPngPrefix "data:image/png;base64,iVBORw0KGgo=" = "iVBORw0KGgo="%string /\
  (forall payload,
     "data:image/jpeg;base64,AAAA"%string <> String.append pngPrefix payload) /\
  stripPngPrefix "data:image/jpeg;base64,AAAA"
    = "data:image/jpeg;base64,AAAA"%string.
Proof.
  split; [exact (proj1 (X17_strip_prefix "iVBORw0KGgo=")) |].
  assert (Hno : forall payload,
            "data:image/jpeg;base64,AAAA"%string
              <> String.append pngPrefix payload)
    by (intros payload; discriminate).
  split; [exact Hno |].
  exact (proj2 (X17_strip_prefix "data:image/jpeg;base64,AAAA") Hno).
Defined.

Lemma get_lookup (s : string) :
  forall i : nat, String.get i s = list_ascii_of_string s !! i.
Proof.
  induction s as [|c s IH]; intros [|i]; simpl; done.
Qed.

Lemma length_list_ascii (s : string) :
  length (list_ascii_of_string s) = String.length s.
Proof. induction s as [|c s IH]; simpl; [done | by rewrite IH]. Qed.

Lemma toUint8_charCodeAt (s : string) (i : nat) (c : Ascii.ascii) :
  list_ascii_of_string s !! i = Some c ->
  toUint8 (charCodeAt s i) = Ascii.N_of_ascii c.
Proof.
  intros Hc. unfold toUint8, charCodeAt. rewrite get_lookup, Hc. simpl.
  apply N.mod_small, Ascii.N_ascii_bounded.
Qed.

Lemma codes_chars (l : list Ascii.ascii) :
  Ascii.ascii_of_N <$> (Ascii.N_of_ascii <$> l) = l.
Proof.
  induction l as [|c l IH]; [done |].
  rewrite !fmap_cons, IH, Ascii.ascii_N_embedding. reflexivity.
Qed.

(** The loop: once the first [i] slots hold the first [i] character codes,
    the remaining iterations fill in the rest. *)
Lemma fillBytes_codes (s : string) :
  forall (todo i : nat) (bytes : list N),
    length bytes = String.length s ->
    (i + todo)%nat = String.length s ->
    take i bytes = take i (Ascii.N_of_ascii <$> list_ascii_of_string s) ->
    fillBytes s todo i bytes = Ascii.N_of_ascii <$> list_ascii_of_string s.
Proof.
  induction todo as [|todo IH]; intros i bytes Hlen Hi Htake; simpl.
  - rewrite take_ge in Htake by lia.
    rewrite take_ge in Htake
      by (rewrite length_fmap, length_list_ascii; lia).
    exact Htake.
  - assert (Hlt : (i < length (list_ascii_of_string s))%nat)
      by (rewrite length_list_ascii; lia).
    apply lookup_lt_is_Some_2 in Hlt as [c Hc].
    apply IH; [by rewrite length_insert | lia |].
    rewrite (take_S_r _ i (toUint8 (charCodeAt s i)))
      by (apply list_lookup_insert_eq; lia).
    rewrite (take_S_r _ i (Ascii.N_of_ascii c))
      by (by rewrite list_lookup_fmap, Hc).
    rewrite take_insert_ge by lia.
    by rewrite Htake, (toUint8_charCodeAt s i c Hc).
Qed.

(** X18.  The byte array handed to the clipboard holds, slot by slot, the
    character codes of the decoded binary string: it has the length of the
    string, every entry is below 256, and reading the entries back as
    characters gives the string again. *)
Theorem X18_binary_to_bytes (binaryString : string) :
  binaryToBytes binaryString
    = Ascii.N_of_ascii <$> list_ascii_of_string binaryString /\
  length (binaryToBytes binaryString) = String.length binaryString /\
  Forall (fun b => (b < 256)%N) (binaryToBytes binaryString) /\
  string_of_list_ascii (Ascii.ascii_of_N <$> binaryToBytes binaryString)
    = binaryString.
Proof.
  assert (Heq : binaryToBytes binaryString
                = Ascii.N_of_ascii <$> list_ascii_of_string binaryString).
  { unfold binaryToBytes. apply fillBytes_codes;
      [by rewrite length_replicate | lia | reflexivity]. }
  rewrite Heq. split; [reflexivity |]. split; [| split].
  - by rewrite length_fmap, length_list_ascii.
  - apply Forall_fmap, Forall_forall. intros c _. apply Ascii.N_ascii_bounded.
  - rewrite codes_chars. apply string_of_list_ascii_of_string.
Qed.
